(** * FinWise-AI: the hybrid trading-signal engine

    A shallow embedding of [core/indicators.py], [core/model.py] and
    [core/signal.py], and the properties of the engine stated over it.

    Python floats are modelled by [fl]: the IEEE special values NaN and
    the two infinities, and finite values as rationals.  Arithmetic on
    finite values is exact (rounding and the sign of zero are abstracted);
    the special values behave as in IEEE 754: NaN is absorbing and compares
    false with everything, [inf - inf] and [0 * inf] are NaN, a finite value
    divided by an infinity is 0. *)

From Stdlib Require Import ZArith QArith Qreduction Lia Lqa Bool String List.
From Stdlib Require PrimFloat FloatClass.
Import ListNotations.

Open Scope Q_scope.

#[local] Arguments Qred : simpl never.
#[local] Arguments Qcompare : simpl never.
#[local] Arguments Qeq_bool : simpl never.

(** ** Floats *)

Module Float.

Inductive fl : Type :=
  | NaN
  | NInf
  | Fin (q : Q)
  | PInf.

Definition of_Z (z : Z) : fl := Fin (inject_Z z).

Definition isnan (x : fl) : bool :=
  match x with NaN => true | _ => false end.

(** [x < y], [x <= y], [x == y] of floats; any comparison with NaN is
    false. *)
Definition ltb (x y : fl) : bool :=
  match x, y with
  | NaN, _ | _, NaN => false
  | NInf, NInf => false
  | NInf, _ => true
  | Fin _, NInf => false
  | Fin a, Fin b => match a ?= b with Lt => true | _ => false end
  | Fin _, PInf => true
  | PInf, _ => false
  end.

Definition eqb (x y : fl) : bool :=
  match x, y with
  | NInf, NInf | PInf, PInf => true
  | Fin a, Fin b => Qeq_bool a b
  | _, _ => false
  end.

Definition leb (x y : fl) : bool := ltb x y || eqb x y.
Definition gtb (x y : fl) : bool := ltb y x.
Definition geb (x y : fl) : bool := leb y x.
Definition neqb (x y : fl) : bool := negb (eqb x y).

Definition neg (x : fl) : fl :=
  match x with
  | NaN => NaN
  | NInf => PInf
  | Fin q => Fin (Qred (- q))
  | PInf => NInf
  end.

Definition add (x y : fl) : fl :=
  match x, y with
  | NaN, _ | _, NaN => NaN
  | PInf, NInf | NInf, PInf => NaN
  | PInf, _ | _, PInf => PInf
  | NInf, _ | _, NInf => NInf
  | Fin a, Fin b => Fin (Qred (a + b))
  end.

Definition sub (x y : fl) : fl := add x (neg y).

(** Sign of a rational as a comparison with 0. *)
Definition sgn (q : Q) : comparison := (0 ?= q).

Definition mul (x y : fl) : fl :=
  match x, y with
  | NaN, _ | _, NaN => NaN
  | Fin a, Fin b => Fin (Qred (a * b))
  | Fin a, PInf | PInf, Fin a =>
      match sgn a with Lt => PInf | Eq => NaN | Gt => NInf end
  | Fin a, NInf | NInf, Fin a =>
      match sgn a with Lt => NInf | Eq => NaN | Gt => PInf end
  | PInf, PInf | NInf, NInf => PInf
  | PInf, NInf | NInf, PInf => NInf
  end.

(** Division as numpy does it on float64: a nonzero value over zero is an
    infinity of the sign of the numerator, [0/0] is NaN. *)
Definition div (x y : fl) : fl :=
  match x, y with
  | NaN, _ | _, NaN => NaN
  | Fin a, Fin b =>
      if Qeq_bool b 0
      then match sgn a with Lt => PInf | Eq => NaN | Gt => NInf end
      else Fin (Qred (a / b))
  | Fin _, (PInf | NInf) => Fin 0
  | PInf, Fin b => match sgn b with Gt => NInf | _ => PInf end
  | NInf, Fin b => match sgn b with Gt => PInf | _ => NInf end
  | (PInf | NInf), (PInf | NInf) => NaN
  end.

(** Truth value of a float in a Python condition: everything but zero. *)
Definition truthy (x : fl) : bool := negb (eqb x (Fin 0)).

(** [0 <= x <= hi] for a float that is a number. *)
Definition between (lo hi : Q) (x : fl) : Prop :=
  match x with
  | Fin q => lo <= q /\ q <= hi
  | _ => False
  end.

(** A float that is NaN or a number [>= 0] (possibly [+inf]). *)
Definition nonneg_or_nan (x : fl) : Prop :=
  match x with
  | NaN | PInf => True
  | Fin q => 0 <= q
  | NInf => False
  end.

End Float.
Import Float.

Declare Scope fl_scope.
Delimit Scope fl_scope with fl.
Notation "x <? y" := (ltb x y) : fl_scope.
Notation "x >? y" := (gtb x y) : fl_scope.
Notation "x <=? y" := (leb x y) : fl_scope.
Notation "x >=? y" := (geb x y) : fl_scope.
Notation "x + y" := (add x y) : fl_scope.
Notation "x - y" := (sub x y) : fl_scope.
Notation "x * y" := (mul x y) : fl_scope.
Notation "x / y" := (div x y) : fl_scope.

(** ** Exceptions

    Python exceptions are values; a computation that may raise returns
    [Ok] or [Raise]. *)

Inductive exn : Type :=
  | ValueError (msg : string)
  | TypeError (msg : string)
  | IndexError (msg : string)
  | RuntimeError (msg : string).

(** [str(e)] *)
Definition str_of_exn (e : exn) : string :=
  match e with
  | ValueError m | TypeError m | IndexError m | RuntimeError m => m
  end.

Inductive result (A : Type) : Type :=
  | Ok (a : A)
  | Raise (e : exn).
Arguments Ok {A} a.
Arguments Raise {A} e.

Definition bind {A B} (m : result A) (k : A -> result B) : result B :=
  match m with
  | Ok a => k a
  | Raise e => Raise e
  end.

(** [try m except Exception as e: h e] *)
Definition try_except {A} (m : result A) (h : exn -> result A) : result A :=
  match m with
  | Ok a => Ok a
  | Raise e => h e
  end.

Notation "x <- m ;; k" := (bind m (fun x => k))
  (at level 61, m at next level, right associativity).

(** ** The pandas operations the engine uses

    A [pd.Series] of floats is the list of its values in index order. *)

Module Pandas.

(** A cell of an object column, by what the two readers of the engine make
    of it: [pd.to_numeric(..., errors="coerce")] and Python's [float()].
    [CNum v] is a number (a float, or text both read as [v]); [CText s] is
    text neither reads as a number; [CNone] is [None]; [CObj c f] is any
    other object, given by its two readings, which need not agree: the
    text "1_000" is NaN for pandas and 1000.0 for [float()]. *)
Inductive cell : Type :=
  | CNum (v : fl)
  | CText (s : string)
  | CNone
  | CObj (coerced : fl) (as_float : result fl).

(** [pd.to_numeric(col, errors="coerce")]: what pandas does not read as a
    number becomes NaN. *)
Definition to_numeric_cell (c : cell) : fl :=
  match c with
  | CNum v => v
  | CText _ | CNone => NaN
  | CObj coerced _ => coerced
  end.

Definition to_numeric (col : list cell) : list fl := map to_numeric_cell col.

(** Python's [float(x)] on a cell: raises on text that is not a number
    and on [None]. *)
Definition py_float (c : cell) : result fl :=
  match c with
  | CNum v => Ok v
  | CText s =>
      Raise (ValueError ("could not convert string to float: '" ++ s ++ "'")%string)
  | CNone =>
      Raise (TypeError
               "float() argument must be a string or a real number, not 'NoneType'")
  | CObj _ as_float => as_float
  end.

(** [s.fillna(method="ffill")]: a NaN takes the last value seen before
    it; leading NaNs stay. *)
Fixpoint ffill_from (prev : fl) (s : list fl) : list fl :=
  match s with
  | [] => []
  | x :: s' =>
      let y := if isnan x then prev else x in
      y :: ffill_from y s'
  end.

Definition ffill (s : list fl) : list fl := ffill_from NaN s.

(** [s.fillna(v)] *)
Definition fillna (v : fl) (s : list fl) : list fl :=
  map (fun x => if isnan x then v else x) s.

(** [s.isna().all()] *)
Definition isna_all (s : list fl) : bool := forallb isnan s.

(** [s.replace(a, b)]: the values equal to [a] become [b]. *)
Definition replace (a b : fl) (s : list fl) : list fl :=
  map (fun x => if eqb x a then b else x) s.

(** [s.iloc[-1]]; raises on an empty series. *)
Definition iloc_last {A} (s : list A) : result A :=
  match rev s with
  | x :: _ => Ok x
  | [] => Raise (IndexError "single positional indexer is out-of-bounds")
  end.

(** [s.diff()]: the first value has no predecessor. *)
Fixpoint diff_from (prev : fl) (s : list fl) : list fl :=
  match s with
  | [] => []
  | x :: s' => (x - prev)%fl :: diff_from x s'
  end.

Definition diff (s : list fl) : list fl := diff_from NaN s.

(** [s.clip(lower=lo)] and [s.clip(upper=hi)]: NaN stays NaN. *)
Definition clip_lower (lo : fl) (s : list fl) : list fl :=
  map (fun x => if (x <? lo)%fl then lo else x) s.

Definition clip_upper (hi : fl) (s : list fl) : list fl :=
  map (fun x => if (x >? hi)%fl then hi else x) s.

(** Elementwise arithmetic of two aligned series, and of a scalar with a
    series. *)
Fixpoint zip_with (f : fl -> fl -> fl) (a b : list fl) : list fl :=
  match a, b with
  | x :: a', y :: b' => f x y :: zip_with f a' b'
  | _, _ => []
  end.

Definition sum (l : list fl) : fl := fold_left add l (Fin 0).

(** The trailing window of [w] positions ending at position [i]. *)
Definition window_at (w : nat) (s : list fl) (i : nat) : list fl :=
  skipn (S i - w) (firstn (S i) s).

(** Mean of the observations (the values that are not NaN) of a window,
    when there are at least [minp] of them and at least one. *)
Definition window_mean (minp : nat) (win : list fl) : fl :=
  let obs := filter (fun x => negb (isnan x)) win in
  let n := length obs in
  if ((minp <=? n) && (0 <? n))%nat
  then (sum obs / of_Z (Z.of_nat n))%fl
  else NaN.

(** Before a window operation pandas reads [+inf] and [-inf] as missing
    values. *)
Definition isinf (x : fl) : bool :=
  match x with PInf | NInf => true | _ => false end.

Definition prep_values (s : list fl) : list fl :=
  map (fun x => if isinf x then NaN else x) s.

(** [s.rolling(window=w, min_periods=minp).mean()], for [minp <= w]
    (pandas raises [ValueError] otherwise): the mean of each trailing
    window, in exact arithmetic, where pandas keeps a running float sum. *)
Definition rolling_mean_of (w minp : nat) (vals : list fl) : list fl :=
  map (fun i => window_mean minp (window_at w vals i)) (seq 0 (length vals)).

Definition rolling_mean (w minp : nat) (s : list fl) : list fl :=
  rolling_mean_of w minp (prep_values s).

(** [s.ewm(span=span, adjust=False).mean()], as pandas computes it: the
    running average [weighted] and the weight [old_wt] of the past; a NaN
    input repeats the last average and ages its weight; an average equal
    to the new value is kept as it is. *)
Definition ewm_alpha (span : Z) : fl := (of_Z 2 / of_Z (span + 1))%fl.

Definition ewm_step (alpha : fl) (st : fl * fl) (cur : fl) : fl * fl :=
  let '(weighted, old_wt) := st in
  let is_observation := negb (isnan cur) in
  if negb (isnan weighted) then
    let old_wt := (old_wt * (of_Z 1 - alpha))%fl in
    if is_observation then
      let weighted :=
        if neqb weighted cur
        then ((old_wt * weighted + alpha * cur) / (old_wt + alpha))%fl
        else weighted in
      (weighted, of_Z 1)
    else (weighted, old_wt)
  else if is_observation then (cur, old_wt)
  else (weighted, old_wt).

Fixpoint ewm_from (alpha : fl) (st : fl * fl) (s : list fl) : list fl :=
  match s with
  | [] => []
  | cur :: s' =>
      let st' := ewm_step alpha st cur in
      fst st' :: ewm_from alpha st' s'
  end.

Definition ewm_mean (span : Z) (s : list fl) : list fl :=
  match prep_values s with
  | [] => []
  | x0 :: s' => x0 :: ewm_from (ewm_alpha span) (x0, of_Z 1) s'
  end.

End Pandas.
Import Pandas.

(** ** core/indicators.py *)

(** [compute_ma] is called with [window >= 1]; at [window = 0] pandas
    raises [ValueError] ([min_periods 1 must be <= window 0]), which the
    list this definition returns there does not stand for. *)
Definition compute_ma (series : list fl) (window : nat) : list fl :=
  rolling_mean window 1 series.

Definition compute_rsi (series : list fl) (window : nat) : list fl :=
  let delta := diff series in
  let gain := clip_lower (Fin 0) delta in
  let loss := map neg (clip_upper (Fin 0) delta) in
  let avg_gain := rolling_mean window window gain in
  let avg_loss := rolling_mean window window loss in
  let rs := zip_with div avg_gain (replace (Fin 0) PInf avg_loss) in
  let rsi := map (fun r => (of_Z 100 - of_Z 100 / (of_Z 1 + r))%fl) rs in
  fillna (of_Z 50) rsi.

(** The frame [compute_macd] returns, by column. *)
Module Macd.
Record t : Type := mk {
  macd : list fl;
  signal : list fl;
  hist : list fl
}.
End Macd.

Definition compute_macd (series : list fl) : Macd.t :=
  let ema12 := ewm_mean 12 series in
  let ema26 := ewm_mean 26 series in
  let macd := zip_with sub ema12 ema26 in
  let signal := ewm_mean 9 macd in
  let hist := zip_with sub macd signal in
  Macd.mk macd signal hist.

(** ** core/indicators.py in float arithmetic

    [compute_rsi] once more, on IEEE 754 doubles, with the rolling mean as
    pandas computes it for a fixed window: one running sum per series,
    with Kahan compensation, to which the value entering the window is
    added and from which the value leaving it is removed. *)

Module F64.

Import PrimFloat.

#[local] Set Warnings "-inexact-float".
#[local] Open Scope float_scope.

Fixpoint of_pos (p : positive) : float :=
  match p with
  | xH => 1
  | xO q => 2 * of_pos q
  | xI q => 2 * of_pos q + 1
  end.

(** The double of an integer (exact below 2^53). *)
Definition of_Z (z : Z) : float :=
  match z with
  | Z0 => 0
  | Zpos p => of_pos p
  | Zneg p => - of_pos p
  end.

Definition nan : float := 0 / 0.

Definition isnan (x : float) : bool := negb (x =? x).

Definition isinf (x : float) : bool :=
  (x =? infinity) || (x =? neg_infinity).

(** C's [signbit]: set on negative numbers and on [-0.0]. *)
Definition signbit (x : float) : bool :=
  match classify x with
  | FloatClass.NInf | FloatClass.NNormal | FloatClass.NSubn
  | FloatClass.NZero => true
  | _ => false
  end.

(** The state of [roll_mean]: observations in the window, running sum,
    number of values with the sign bit set, the two compensations, the
    run of equal values and the last value added. *)
Record state : Type := mk_state {
  nobs : Z;
  sum_x : float;
  neg_ct : Z;
  compensation_add : float;
  compensation_remove : float;
  num_consecutive_same_value : Z;
  prev_value : float
}.

Definition add_mean (val : float) (s : state) : state :=
  if val =? val then
    let y := val - compensation_add s in
    let t := sum_x s + y in
    mk_state (Z.succ (nobs s)) t
      (if signbit val then Z.succ (neg_ct s) else neg_ct s)
      (t - sum_x s - y) (compensation_remove s)
      (if val =? prev_value s then Z.succ (num_consecutive_same_value s)
       else 1%Z)
      val
  else s.

Definition remove_mean (val : float) (s : state) : state :=
  if val =? val then
    let y := - val - compensation_remove s in
    let t := sum_x s + y in
    mk_state (Z.pred (nobs s)) t
      (if signbit val then Z.pred (neg_ct s) else neg_ct s)
      (compensation_add s) (t - sum_x s - y)
      (num_consecutive_same_value s) (prev_value s)
  else s.

Definition calc_mean (minp : Z) (s : state) : float :=
  if Z.leb minp (nobs s) && Z.ltb 0 (nobs s) then
    let result := sum_x s / of_Z (nobs s) in
    if Z.leb (nobs s) (num_consecutive_same_value s) then prev_value s
    else if Z.eqb (neg_ct s) 0 && (result <? 0) then 0
    else if Z.eqb (neg_ct s) (nobs s) && (0 <? result) then 0
    else result
  else nan.

(** The loop of [roll_mean] from position [i] on, for the window
    [max(0, i + 1 - w) .. i]: remove the value that leaves, add the one
    that enters, read the mean. *)
Fixpoint roll_mean_from (w : nat) (minp : Z) (values : list float)
    (i : nat) (rest : list float) (s : state) : list float :=
  match rest with
  | [] => []
  | val :: rest' =>
      let s := if Nat.leb w i then remove_mean (nth (i - w) values nan) s
               else s in
      let s := add_mean val s in
      calc_mean minp s :: roll_mean_from w minp values (S i) rest' s
  end.

(** [s.rolling(window=w, min_periods=minp).mean()], for [1 <= w]. *)
Definition rolling_mean (w minp : nat) (s : list float) : list float :=
  let values := map (fun x => if isinf x then nan else x) s in
  match values with
  | [] => []
  | v0 :: _ =>
      roll_mean_from w (Z.of_nat minp) values 0 values
        (mk_state 0 0 0 0 0 0 v0)
  end.

Fixpoint diff_from (prev : float) (s : list float) : list float :=
  match s with
  | [] => []
  | x :: s' => (x - prev) :: diff_from x s'
  end.

Definition diff (s : list float) : list float := diff_from nan s.

Fixpoint zip_with (f : float -> float -> float) (a b : list float)
  : list float :=
  match a, b with
  | x :: a', y :: b' => f x y :: zip_with f a' b'
  | _, _ => []
  end.

Definition compute_rsi (series : list float) (window : nat) : list float :=
  let delta := diff series in
  let gain := map (fun x => if x <? 0 then 0 else x) delta in
  let loss := map (fun x => - (if 0 <? x then 0 else x)) delta in
  let avg_gain := rolling_mean window window gain in
  let avg_loss := rolling_mean window window loss in
  let rs :=
    zip_with div avg_gain
      (map (fun x => if x =? 0 then infinity else x) avg_loss) in
  let rsi := map (fun r => 100 - (100 / (1 + r))) rs in
  map (fun x => if isnan x then 50 else x) rsi.

(** Thirty-two positive closes: five large ones, then closes that move
    in the tenth decimal around 5. *)
Definition uneven_closes : list float :=
  [1000000.25; 700000000.1; 10000000.0; 2000000000.25; 500000000.1;
   5.0; 5.0000000004; 5.0000000003; 5.0000000003; 5.0; 5.0;
   5.0000000002; 5.0000000002; 5.0000000003; 5.0000000001; 5.0000000003;
   5.0000000001; 5.0000000002; 5.0000000003; 5.0000000002; 5.0000000002;
   5.0000000002; 5.0000000002; 5.0000000003; 5.0000000002; 5.0000000002;
   5.0000000001; 5.0000000001; 5.0000000001; 5.0000000003; 5.0000000004;
   5.0000000003].

End F64.

(** ** core/model.py *)

(** The [meta] dict of a forecast; a key that is absent is [None]. *)
Module Meta.
Record t : Type := mk {
  trained_epochs : option Z;
  fallback : option bool;
  loss_history : option (list fl);
  reason : option string
}.

(** [meta.get("fallback", False)] *)
Definition get_fallback (m : t) : bool :=
  match fallback m with Some b => b | None => false end.
End Meta.

(** The indicator dict of a result: its six keys. *)
Module Ind.
Record t : Type := mk {
  rsi : fl;
  macd : fl;
  macd_signal : fl;
  ma50 : fl;
  ma200 : fl;
  latest_close : fl
}.
End Ind.

Record SignalResult : Type := mkSignalResult {
  coin : string;
  signal : string;
  predicted_price : fl;
  predicted_change_pct : fl;
  indicators : Ind.t;
  explanation : list string;
  model_meta : Meta.t;
  fallback : bool
}.

(** A data frame by column; all columns have the length of the index. *)
Definition DataFrame : Type := list (string * list cell).

(** [df.empty]: no column or no row. *)
Definition df_empty (df : DataFrame) : bool :=
  match df with
  | [] => true
  | (_, c) :: _ => (List.length c =? 0)%nat
  end.

(** [df[name]] as an option, and [name in df.columns]. *)
Fixpoint df_get (name : string) (df : DataFrame) : option (list cell) :=
  match df with
  | [] => None
  | (k, c) :: df' => if String.eqb k name then Some c else df_get name df'
  end.

Definition df_has (name : string) (df : DataFrame) : bool :=
  match df_get name df with Some _ => true | None => false end.

Definition BUY : string := "BUY".
Definition SELL : string := "SELL".
Definition HOLD : string := "HOLD".

Section Engine.

(** The part of [predict_next_price] that runs scikit-learn and PyTorch
    (min-max scaling, training of the LSTM on shuffled batches, inference
    on the last window, inverse scaling): it depends on the random
    initialisation and on float rounding, and is taken as a parameter.
    Given the forward-filled prices, [lookback], [epochs] and
    [hidden_size], it yields the predicted price, the number of trained
    epochs and the loss history, or raises. *)
Variable lstm_fit_predict :
  list fl -> Z -> Z -> Z -> result (fl * Z * list fl).

(** Python's fixed-point formatting [f"{x:.Nf}"] of a float. *)
Variable format_f : nat -> fl -> string.

Definition predict_next_price
    (series : option (list fl)) (lookback epochs hidden_size : Z)
  : result (fl * fl * Meta.t) :=
  let result_meta := Meta.mk (Some 0%Z) (Some false) (Some []) None in
  match series with
  | None
  | Some [] =>
      Ok (Fin 0, Fin 0,
          Meta.mk (Meta.trained_epochs result_meta) (Some true)
                  (Meta.loss_history result_meta) (Meta.reason result_meta))
  | Some series =>
      let closing := ffill series in
      if (Z.of_nat (List.length closing) <? lookback + 2)%Z then
        last_price <- iloc_last closing ;;
        Ok (last_price, Fin 0,
            Meta.mk (Meta.trained_epochs result_meta) (Some true)
                    (Meta.loss_history result_meta)
                    (Some "insufficient_data"%string))
      else
        fit <- lstm_fit_predict closing lookback epochs hidden_size ;;
        let '(pred_price, trained, losses) := fit in
        last_price <- iloc_last closing ;;
        let pct_change :=
          if truthy last_price
          then ((pred_price - last_price) / last_price)%fl
          else Fin 0 in
        Ok (pred_price, pct_change,
            Meta.mk (Some trained) (Some false) (Some losses) None)
  end.

(** ** core/signal.py *)

Definition _fallback_result (coin_id reason : string) : SignalResult :=
  mkSignalResult coin_id HOLD (Fin 0) (Fin 0)
    (Ind.mk (of_Z 50) (Fin 0) (Fin 0) (Fin 0) (Fin 0) (Fin 0))
    [("Data harga tidak tersedia (" ++ reason ++ ") -> fallback HOLD.")%string]
    (Meta.mk None (Some true) None (Some reason))
    true.

Definition _build_explanation_lines
    (signal : string) (indicators : Ind.t) (pct_change : fl) : list string :=
  let pct_txt := (format_f 2 (pct_change * of_Z 100)%fl ++ "%")%string in
  let rsi := Ind.rsi indicators in
  let macd_rel := (Ind.macd indicators - Ind.macd_signal indicators)%fl in
  let trend :=
    if (Ind.ma50 indicators >? Ind.ma200 indicators)%fl
    then "bullish"%string else "bearish"%string in
  [ ("RSI " ++ format_f 1 rsi ++ " -> momentum "
       ++ (if (rsi <? of_Z 30)%fl then "oversold"
           else if (rsi >? of_Z 70)%fl then "overbought" else "netral")
       ++ ".")%string;
    ("MACD spread " ++ format_f 4 macd_rel ++ " -> "
       ++ (if (macd_rel >? Fin 0)%fl then "positif" else "negatif")
       ++ " dibanding sinyal.")%string;
    ("MA50 vs MA200 menunjukkan tren " ++ trend ++ ".")%string;
    ("Model LSTM memperkirakan perubahan " ++ pct_txt ++ ".")%string;
    ("Rekomendasi akhir: " ++ signal ++ ".")%string ].

(** The technical score of lines 48-62: six independent tests, each
    adding or subtracting one. *)
Definition technical_score
    (latest_rsi latest_macd latest_signal latest_ma50 latest_ma200 : fl) : Z :=
  let score := 0%Z in
  let score := if (latest_rsi <? of_Z 30)%fl then (score + 1)%Z else score in
  let score := if (latest_rsi >? of_Z 70)%fl then (score - 1)%Z else score in
  let score := if (latest_macd >? latest_signal)%fl then (score + 1)%Z else score in
  let score := if (latest_macd <? latest_signal)%fl then (score - 1)%Z else score in
  let score := if (latest_ma50 >? latest_ma200)%fl then (score + 1)%Z else score in
  let score := if (latest_ma50 <? latest_ma200)%fl then (score - 1)%Z else score in
  score.

(** Lines 64-68. *)
Definition base_signal_of (score : Z) : string :=
  if (score >=? 2)%Z then BUY
  else if (score <=? -2)%Z then SELL
  else HOLD.

(** Lines 70-74: the forecast override. *)
Definition final_signal_of (base_signal : string) (pct_change : fl) : string :=
  if (pct_change >=? Fin (1 # 100))%fl && negb (String.eqb base_signal SELL)
  then BUY
  else if (pct_change <=? Fin (- 1 # 100))%fl && negb (String.eqb base_signal BUY)
  then SELL
  else base_signal.

Definition hybrid_signal (df : option DataFrame) (coin_id : string)
  : result SignalResult :=
  match df with
  | None => Ok (_fallback_result coin_id "no_data")
  | Some df =>
    match df_empty df, df_get "close" df with
    | true, _ | _, None => Ok (_fallback_result coin_id "no_data")
    | false, Some col =>
      let close := ffill (to_numeric col) in
      if isna_all close then
        Ok (_fallback_result coin_id "invalid_close_series")
      else
        let rsi_series := compute_rsi close 14 in
        let macd_frame := compute_macd close in
        let ma50 := compute_ma close 50 in
        let ma200 := compute_ma close 200 in
        latest <- iloc_last col ;;
        latest_rsi <- iloc_last rsi_series ;;
        latest_macd <- iloc_last (Macd.macd macd_frame) ;;
        latest_signal <- iloc_last (Macd.signal macd_frame) ;;
        latest_ma50 <- iloc_last ma50 ;;
        latest_ma200 <- iloc_last ma200 ;;
        forecast <-
          try_except (predict_next_price (Some close) 30 3 48)
            (fun e =>
               c <- py_float latest ;;
               Ok (c, Fin 0,
                   Meta.mk None (Some true) None (Some (str_of_exn e)))) ;;
        let '(pred_price, pct_change, model_meta) := forecast in
        let score :=
          technical_score latest_rsi latest_macd latest_signal
                          latest_ma50 latest_ma200 in
        let base_signal := base_signal_of score in
        let final_signal := final_signal_of base_signal pct_change in
        latest_close <- py_float latest ;;
        let indicators :=
          Ind.mk latest_rsi latest_macd latest_signal latest_ma50
                 latest_ma200 latest_close in
        let explain_lines :=
          _build_explanation_lines final_signal indicators pct_change in
        Ok (mkSignalResult coin_id final_signal pred_price pct_change
              indicators explain_lines model_meta
              (Meta.get_fallback model_meta))
    end
  end.

End Engine.

(** ** core/model.py: the training set *)

(** [_prepare_sequences(prices, lookback)]: the lists [x_list] of the
    windows [prices[i : i + lookback]] and [y_list] of the targets
    [prices[i + lookback]], for [i] in [range(len(prices) - lookback)];
    [lookback] is a length, so a natural number.

    The source then packs the two lists into [float32] tensors with
    [reshape(-1, lookback, 1)] and [reshape(-1, 1)].  The rounding of each
    price to [float32] is left out: the rows below are the prices
    themselves.  The first reshape raises [RuntimeError] when [lookback]
    is 0 and when there is no example ([len(prices) <= lookback]), where
    the size of the free dimension cannot be inferred; the rows describe
    the returned tensors for [1 <= lookback < len(prices)], which is how
    [predict_next_price] calls the function. *)
Definition _prepare_sequences (prices : list fl) (lookback : nat)
  : list (list fl) * list fl :=
  let idx := seq 0 (List.length prices - lookback) in
  (map (fun i => firstn lookback (skipn i prices)) idx,
   map (fun i => nth (i + lookback) prices NaN) idx).

(** [scaled[-lookback:]], the window [predict_next_price] feeds to the
    trained model (line 76); in Python [a[-0:]] is the whole array. *)
Definition last_window (scaled : list fl) (lookback : nat) : list fl :=
  match lookback with
  | O => scaled
  | S _ => skipn (List.length scaled - lookback) scaled
  end.

(** ** core/explain.py *)

Definition summarize_insights (bullets : list string) : list string :=
  match bullets with
  | [] => ["Pasar relatif tenang hari ini."%string;
           "Tidak ada berita utama yang signifikan."%string]
  | _ => firstn 5 bullets
  end.

(** ** core/agent.py *)

Module Insight.
Record t : Type := mk {
  topic : string;
  bullets : list string;
  raw : list (string * string)
}.
End Insight.

(** [x in tup] for a tuple of strings. *)
Definition str_in (x : string) (tup : list string) : bool :=
  existsb (String.eqb x) tup.

Section Agent.

(** The three tools of [build_tools] read prices and news from the
    network; what each returns for its argument, or the exception it
    raises, is a parameter. *)
Variable _crypto_tool : string -> result string.
Variable _stock_tool : string -> result string.
Variable _news_tool : string -> result string.

(** The [raw] dict is the list of its items in insertion order; the keys
    set here are distinct. *)
Definition generate_market_insights (topic : string) : result Insight.t :=
  let raw : list (string * string) := [] in
  let bullets : list string := [] in
  st <- (if str_in topic ["crypto"; "mix"]%string then
           v <- _crypto_tool
                  (if negb (String.eqb topic "mix") then topic
                   else "bitcoin"%string) ;;
           Ok (raw ++ [("crypto"%string, v)],
               bullets ++ [("Pasar kripto: " ++ v ++ ".")%string])
         else Ok (raw, bullets)) ;;
  let '(raw, bullets) := st in
  st <- (if str_in topic ["stocks"; "mix"]%string then
           v <- _stock_tool "^GSPC"%string ;;
           Ok (raw ++ [("stock"%string, v)],
               bullets ++ [("Indeks saham: " ++ v ++ ".")%string])
         else Ok (raw, bullets)) ;;
  let '(raw, bullets) := st in
  news <- _news_tool topic ;;
  let raw := raw ++ [("news"%string, news)] in
  let bullets :=
    bullets ++ [("Berita utama: "
                 ++ (if String.eqb news "" then "stabil" else news))%string] in
  let bullets :=
    bullets ++ ["Risiko: perhatikan volatilitas harian, gunakan posisi kecil untuk aset berisiko."%string] in
  let bullets :=
    bullets ++ ["Saran: catat level support/resistance dan gunakan DCA untuk akumulasi."%string] in
  Ok (Insight.mk topic (summarize_insights bullets) raw).

End Agent.

(** * Vocabulary of the properties

    The definitions the statements below are written with: the RSI at one
    position, the specification's wording of the score, the shape of a
    result of the engine, and the concrete inputs the engine is run on. *)

(** One value of the RSI series from the two averages (lines 14-16 of
    indicators.py at one position). *)
Definition rsi_point (avg_gain avg_loss : fl) : fl :=
  let avg_loss' := if eqb avg_loss (Fin 0) then PInf else avg_loss in
  let rs := (avg_gain / avg_loss')%fl in
  let rsi := (of_Z 100 - of_Z 100 / (of_Z 1 + rs))%fl in
  if isnan rsi then of_Z 50 else rsi.

(** A number [>= 0], possibly [+inf]: what a sum of observations is. *)
Definition nonneg_num (x : fl) : Prop :=
  match x with
  | Fin q => 0 <= q
  | PInf => True
  | _ => False
  end.

(** The stages of [rsi_point]: a divisor that is positive, a sum that is
    at least 1, a quotient and a difference in [0, 100]. *)
Definition pos_or_nan (x : fl) : Prop :=
  match x with
  | NaN | PInf => True
  | Fin q => 0 < q
  | NInf => False
  end.

Definition ge1_or_nan (x : fl) : Prop :=
  match x with
  | NaN | PInf => True
  | Fin q => 1 <= q
  | NInf => False
  end.

Definition pct_or_nan (x : fl) : Prop :=
  match x with
  | NaN => True
  | Fin q => 0 <= q /\ q <= 100
  | _ => False
  end.

(** The contribution of one indicator as the specification words it:
    [+1] on the bullish test, [-1] on the bearish one, nothing
    otherwise. *)
Definition vote (bullish bearish : bool) : Z :=
  if bullish then 1%Z else if bearish then (-1)%Z else 0%Z.

Definition score_spec (rsi macd macd_signal ma50 ma200 : fl) : Z :=
  (vote (rsi <? of_Z 30)%fl (rsi >? of_Z 70)%fl
   + vote (macd >? macd_signal)%fl (macd <? macd_signal)%fl
   + vote (ma50 >? ma200)%fl (ma50 <? ma200)%fl)%Z.

Definition is_signal (s : string) : Prop := s = BUY \/ s = HOLD \/ s = SELL.

(** The last observed price of a series: its last value that is not NaN
    (NaN when there is none). *)
Definition last_observed (s : list fl) : fl :=
  last (filter (fun x => negb (isnan x)) s) NaN.

Section ResultShape.

Variable lstm_fit_predict :
  list fl -> Z -> Z -> Z -> result (fl * Z * list fl).
Variable format_f : nat -> fl -> string.

(** What the forecast step of the engine yields: the forecast of the
    model, or, when the model raised [e], the substitute built from the
    last close of the frame. *)
Definition forecast_of (close : list fl) (latest_close : fl)
    (pred_price pct_change : fl) (meta : Meta.t) : Prop :=
  predict_next_price lstm_fit_predict (Some close) 30%Z 3%Z 48%Z
    = Ok (pred_price, pct_change, meta) \/
  exists e,
    predict_next_price lstm_fit_predict (Some close) 30%Z 3%Z 48%Z = Raise e /\
    pred_price = latest_close /\ pct_change = Fin 0 /\
    meta = Meta.mk None (Some true) None (Some (str_of_exn e)).

(** A result of the engine on usable data: every field in terms of the
    close column. *)
Definition main_result (col : list cell) (coin_id : string)
    (r : SignalResult) : Prop :=
  let close := ffill (to_numeric col) in
  let ind := indicators r in
  isna_all close = false /\
  iloc_last (compute_rsi close 14) = Ok (Ind.rsi ind) /\
  iloc_last (Macd.macd (compute_macd close)) = Ok (Ind.macd ind) /\
  iloc_last (Macd.signal (compute_macd close)) = Ok (Ind.macd_signal ind) /\
  iloc_last (compute_ma close 50) = Ok (Ind.ma50 ind) /\
  iloc_last (compute_ma close 200) = Ok (Ind.ma200 ind) /\
  (exists latest, iloc_last col = Ok latest /\
                  py_float latest = Ok (Ind.latest_close ind)) /\
  forecast_of close (Ind.latest_close ind)
    (predicted_price r) (predicted_change_pct r) (model_meta r) /\
  signal r =
    final_signal_of
      (base_signal_of
         (technical_score (Ind.rsi ind) (Ind.macd ind) (Ind.macd_signal ind)
                          (Ind.ma50 ind) (Ind.ma200 ind)))
      (predicted_change_pct r) /\
  coin r = coin_id /\
  explanation r =
    _build_explanation_lines format_f (signal r) ind (predicted_change_pct r) /\
  fallback r = Meta.get_fallback (model_meta r).

End ResultShape.

(** A small usable frame, a forecasting model that always predicts 105
    after three epochs, and a formatter, to run the engine on. *)
Definition demo_lstm : list fl -> Z -> Z -> Z -> result (fl * Z * list fl) :=
  fun _ _ _ _ => Ok (of_Z 105, 3%Z, [Fin (1 # 10)]).

(** A second forecasting model, with another outcome than [demo_lstm]. *)
Definition demo_lstm' : list fl -> Z -> Z -> Z -> result (fl * Z * list fl) :=
  fun _ _ _ _ => Ok (of_Z 90, 3%Z, [Fin (2 # 10)]).

(** A forecasting model whose training fails. *)
Definition demo_lstm_raising
  : list fl -> Z -> Z -> Z -> result (fl * Z * list fl) :=
  fun _ _ _ _ => Raise (RuntimeError "training diverged").

Definition demo_format : nat -> fl -> string := fun _ _ => "?"%string.

Definition demo_prices (start : nat) (n : nat) : list cell :=
  map (fun i => CNum (of_Z (Z.of_nat i))) (seq start n).

Definition demo_frame (n : nat) : DataFrame :=
  [("date"%string, repeat CNone n); ("close"%string, demo_prices 100 n)].

(** A frame of [n] flat closes of 100. *)
Definition flat_frame (n : nat) : DataFrame :=
  [("close"%string, repeat (CNum (Fin 100)) n)].

(** A frame whose close column ends with text that is not a number. *)
Definition text_close_frame : DataFrame :=
  [("close"%string, [CNum (Fin 1); CText "abc"])].

(** The closes of [F64.uneven_closes] as exact decimals. *)
Definition uneven_closes_exact : list fl :=
  map (fun z => Fin (z # 10000000000))
    [10000002500000000; 7000000001000000000; 100000000000000000;
     20000000002500000000; 5000000001000000000;
     50000000000; 50000000004; 50000000003; 50000000003; 50000000000;
     50000000000; 50000000002; 50000000002; 50000000003; 50000000001;
     50000000003; 50000000001; 50000000002; 50000000003; 50000000002;
     50000000002; 50000000002; 50000000002; 50000000003; 50000000002;
     50000000002; 50000000001; 50000000001; 50000000001; 50000000003;
     50000000004; 50000000003]%Z.

(** Fifteen closes rising by one: 100, 101, ..., 114. *)
Definition rising15 : list fl :=
  map (fun i => of_Z (Z.of_nat i)) (seq 100 15).

(** * Properties *)

(** ** Facts about floats *)

Section FloatFacts.

Lemma ltb_Fin (a b : Q) : ltb (Fin a) (Fin b) = true <-> a < b.
Proof.
  simpl. rewrite Qlt_alt. destruct (a ?= b); split; congruence.
Qed.

Lemma ltb_asym (x y : fl) : ltb x y = true -> ltb y x = false.
Proof.
  destruct x as [| |a|], y as [| |b|]; simpl; try congruence.
  destruct (a ?= b) eqn:E; try discriminate. intros _.
  rewrite <- Qlt_alt in E.
  destruct (b ?= a) eqn:E'; try reflexivity.
  rewrite <- Qlt_alt in E'. lra.
Qed.

Lemma ltb_trans (x y z : fl) :
  ltb x y = true -> ltb y z = true -> ltb x z = true.
Proof.
  destruct x as [| |a|], y as [| |b|], z as [| |c|]; simpl; try congruence.
  destruct (a ?= b) eqn:E1; try discriminate.
  destruct (b ?= c) eqn:E2; try discriminate. intros _ _.
  rewrite <- Qlt_alt in E1, E2.
  assert (H : a < c) by lra. rewrite Qlt_alt in H. now rewrite H.
Qed.

Lemma eqb_Fin (a b : Q) : eqb (Fin a) (Fin b) = true <-> a == b.
Proof. simpl. apply Qeq_bool_iff. Qed.

Lemma eqb_refl_Fin (a : Q) : eqb (Fin a) (Fin a) = true.
Proof. apply eqb_Fin. reflexivity. Qed.

Lemma Qeq_bool_false (a b : Q) : ~ a == b -> Qeq_bool a b = false.
Proof.
  intros H. destruct (Qeq_bool a b) eqn:E; [|reflexivity].
  apply Qeq_bool_iff in E. contradiction.
Qed.

Lemma sgn_pos (q : Q) : 0 < q -> sgn q = Lt.
Proof. intros H. unfold sgn. now rewrite <- Qlt_alt. Qed.

Lemma Qdiv_ge1_bounds (r : Q) : 1 <= r -> 0 <= 100 / r /\ 100 / r <= 100.
Proof.
  intros H. assert (Hr : 0 < r) by lra. split.
  - apply Qle_shift_div_l; lra.
  - apply Qle_shift_div_r; lra.
Qed.

Lemma Qdiv_nonneg (a b : Q) : 0 <= a -> 0 < b -> 0 <= a / b.
Proof. intros Ha Hb. apply Qle_shift_div_l; lra. Qed.

End FloatFacts.

(** ** RSI stays in [0, 100] *)

Section RsiRange.

Lemma zip_with_length f (a b : list fl) :
  List.length a = List.length b ->
  List.length (zip_with f a b) = List.length a.
Proof.
  revert b. induction a as [|x a IH]; intros [|y b]; simpl; try congruence.
  intros H. f_equal. apply IH. congruence.
Qed.

Lemma rolling_mean_length w m s :
  List.length (rolling_mean w m s) = List.length s.
Proof.
  unfold rolling_mean, rolling_mean_of, prep_values.
  now rewrite length_map, length_seq, length_map.
Qed.

Lemma diff_from_length p s : List.length (diff_from p s) = List.length s.
Proof. revert p. induction s; simpl; intros; [reflexivity|now rewrite IHs]. Qed.

(** The RSI series is [rsi_point] applied position by position to the two
    rolling averages. *)
Lemma zip_with_map_r f g (a b : list fl) :
  zip_with f a (map g b) = zip_with (fun x y => f x (g y)) a b.
Proof.
  revert b. induction a as [|x a IH]; intros [|y b]; simpl; try reflexivity.
  now rewrite IH.
Qed.

Lemma map_zip_with h f (a b : list fl) :
  map h (zip_with f a b) = zip_with (fun x y => h (f x y)) a b.
Proof.
  revert b. induction a as [|x a IH]; intros [|y b]; simpl; try reflexivity.
  now rewrite IH.
Qed.

Lemma compute_rsi_pointwise s w :
  compute_rsi s w =
  zip_with rsi_point
    (rolling_mean w w (clip_lower (Fin 0) (diff s)))
    (rolling_mean w w (map neg (clip_upper (Fin 0) (diff s)))).
Proof.
  unfold compute_rsi, fillna, replace. cbv zeta.
  rewrite zip_with_map_r, !map_zip_with. reflexivity.
Qed.

Lemma compute_rsi_length s w :
  List.length (compute_rsi s w) = List.length s.
Proof.
  rewrite compute_rsi_pointwise. unfold clip_lower, clip_upper, diff.
  rewrite zip_with_length;
    rewrite ?rolling_mean_length, ?length_map, ?diff_from_length;
    reflexivity.
Qed.

Lemma Forall_zip_with (P Q' R : fl -> Prop) f a b :
  (forall x y, P x -> Q' y -> R (f x y)) ->
  Forall P a -> Forall Q' b -> Forall R (zip_with f a b).
Proof.
  intros Hf Ha. revert b. induction Ha as [|x a Hx Ha IH]; intros b Hb.
  - constructor.
  - destruct Hb as [|y b Hy Hb]; simpl; constructor; auto.
Qed.

Lemma clip_lower_nonneg s : Forall nonneg_or_nan (clip_lower (Fin 0) s).
Proof.
  unfold clip_lower. apply Forall_map, Forall_forall. intros x _.
  destruct x as [| |q|]; simpl; try exact I; [lra|].
  destruct (q ?= 0) eqn:E; simpl.
  - rewrite <- Qeq_alt in E. lra.
  - lra.
  - rewrite <- Qgt_alt in E. lra.
Qed.

Lemma neg_clip_upper_nonneg s :
  Forall nonneg_or_nan (map neg (clip_upper (Fin 0) s)).
Proof.
  unfold clip_upper. rewrite map_map. apply Forall_map, Forall_forall.
  intros x _. destruct x as [| |q|]; simpl; try exact I.
  - destruct (0 ?= q) eqn:E; simpl; rewrite ?Qred_correct.
    + rewrite <- Qeq_alt in E. lra.
    + lra.
    + rewrite <- Qgt_alt in E. lra.
  - rewrite Qred_correct. lra.
Qed.

Lemma add_nonneg_num x y : nonneg_num x -> nonneg_num y -> nonneg_num (x + y)%fl.
Proof.
  destruct x, y; simpl; try tauto. rewrite Qred_correct. lra.
Qed.

Lemma fold_add_nonneg_num l acc :
  nonneg_num acc -> Forall nonneg_num l -> nonneg_num (fold_left add l acc).
Proof.
  intros Hacc Hl. revert acc Hacc.
  induction Hl as [|x l Hx Hl IH]; simpl; intros acc Hacc; auto.
  apply IH, add_nonneg_num; assumption.
Qed.

Lemma filter_obs_nonneg_num l :
  Forall nonneg_or_nan l ->
  Forall nonneg_num (filter (fun x => negb (isnan x)) l).
Proof.
  induction 1 as [|x l Hx Hl IH]; simpl; [constructor|].
  destruct x; simpl in *; try assumption; constructor; auto.
Qed.

Lemma window_mean_nonneg minp win :
  Forall nonneg_or_nan win -> nonneg_or_nan (window_mean minp win).
Proof.
  intros H. unfold window_mean.
  set (obs := filter _ win).
  destruct ((minp <=? List.length obs)%nat && (0 <? List.length obs)%nat) eqn:E;
    [|exact I].
  apply andb_prop in E. destruct E as [_ E]. apply Nat.ltb_lt in E.
  assert (Hs : nonneg_num (sum obs)).
  { apply fold_add_nonneg_num; [simpl; lra|]. now apply filter_obs_nonneg_num. }
  assert (Hn : 0 < inject_Z (Z.of_nat (List.length obs))).
  { change 0 with (inject_Z 0). rewrite <- Zlt_Qlt. lia. }
  unfold of_Z. destruct (sum obs) as [| |q|]; simpl in *; try tauto.
  - rewrite Qeq_bool_false by lra. simpl. rewrite Qred_correct.
    now apply Qdiv_nonneg.
  - now rewrite sgn_pos.
Qed.

Lemma in_firstn_in {A} n (l : list A) x : In x (firstn n l) -> In x l.
Proof.
  intros H. rewrite <- (firstn_skipn n l). apply in_or_app. now left.
Qed.

Lemma in_skipn_in {A} n (l : list A) x : In x (skipn n l) -> In x l.
Proof.
  intros H. rewrite <- (firstn_skipn n l). apply in_or_app. now right.
Qed.

Lemma window_at_Forall (P : fl -> Prop) w s i :
  Forall P s -> Forall P (window_at w s i).
Proof.
  intros H. unfold window_at.
  rewrite Forall_forall in *. intros x Hx.
  eapply H, in_firstn_in, in_skipn_in, Hx.
Qed.

Lemma prep_values_nonneg s :
  Forall nonneg_or_nan s -> Forall nonneg_or_nan (prep_values s).
Proof.
  intros H. unfold prep_values. apply Forall_map.
  eapply Forall_impl; [|exact H]. intros x Hx. now destruct x.
Qed.

Lemma rolling_mean_nonneg w minp s :
  Forall nonneg_or_nan s -> Forall nonneg_or_nan (rolling_mean w minp s).
Proof.
  intros H. unfold rolling_mean, rolling_mean_of.
  apply Forall_map, Forall_forall.
  intros i _. now apply window_mean_nonneg, window_at_Forall, prep_values_nonneg.
Qed.

Lemma replace_zero_pos l :
  nonneg_or_nan l -> pos_or_nan (if eqb l (Fin 0) then PInf else l).
Proof.
  destruct l as [| |b|]; simpl; try tauto. intros Hb.
  destruct (Qeq_bool b 0) eqn:E; simpl; [exact I|].
  destruct (Qeq_dec b 0) as [H0|H0]; [|lra].
  apply Qeq_bool_iff in H0. congruence.
Qed.

Lemma div_nonneg_pos g l :
  nonneg_or_nan g -> pos_or_nan l -> nonneg_or_nan (g / l)%fl.
Proof.
  destruct g as [| |a|], l as [| |b|]; simpl; try tauto; intros Ha Hb;
    try lra.
  - rewrite Qeq_bool_false by lra. simpl. rewrite Qred_correct.
    now apply Qdiv_nonneg.
  - now rewrite sgn_pos.
Qed.

Lemma add_one_ge1 r : nonneg_or_nan r -> ge1_or_nan (of_Z 1 + r)%fl.
Proof.
  unfold of_Z, inject_Z.
  destruct r as [| |q|]; simpl; try tauto. rewrite Qred_correct. lra.
Qed.

Lemma div_100_pct d : ge1_or_nan d -> pct_or_nan (of_Z 100 / d)%fl.
Proof.
  unfold of_Z, inject_Z.
  destruct d as [| |q|]; simpl; try tauto; intros H; try lra.
  rewrite Qeq_bool_false by lra. simpl. rewrite Qred_correct.
  now apply Qdiv_ge1_bounds.
Qed.

Lemma sub_100_pct y : pct_or_nan y -> pct_or_nan (of_Z 100 - y)%fl.
Proof.
  unfold of_Z, inject_Z, sub.
  destruct y as [| |q|]; simpl; try tauto. rewrite !Qred_correct. lra.
Qed.

Lemma fillna_50_range v :
  pct_or_nan v -> between 0 100 (if isnan v then of_Z 50 else v).
Proof.
  unfold of_Z, inject_Z. destruct v; simpl; try tauto. lra.
Qed.

Lemma rsi_point_range g l :
  nonneg_or_nan g -> nonneg_or_nan l -> between 0 100 (rsi_point g l).
Proof.
  intros Hg Hl. unfold rsi_point.
  apply fillna_50_range, sub_100_pct, div_100_pct, add_one_ge1.
  apply div_nonneg_pos; [assumption|]. now apply replace_zero_pos.
Qed.

Lemma compute_rsi_range s w : Forall (between 0 100) (compute_rsi s w).
Proof.
  rewrite compute_rsi_pointwise.
  eapply Forall_zip_with with (P := nonneg_or_nan) (Q' := nonneg_or_nan).
  - apply rsi_point_range.
  - apply rolling_mean_nonneg, clip_lower_nonneg.
  - apply rolling_mean_nonneg, neg_clip_upper_nonneg.
Qed.

End RsiRange.

(** ** The shape of a result of [hybrid_signal] *)

Section EngineShape.

Variable lstm_fit_predict :
  list fl -> Z -> Z -> Z -> result (fl * Z * list fl).
Variable format_f : nat -> fl -> string.

Lemma iloc_last_In {A} (l : list A) x : iloc_last l = Ok x -> In x l.
Proof.
  unfold iloc_last. destruct (rev l) as [|y t] eqn:E; [discriminate|].
  intros H. injection H as <-. apply in_rev. rewrite E. now left.
Qed.

Lemma iloc_last_nonempty {A} (l : list A) :
  l <> [] -> exists x, iloc_last l = Ok x.
Proof.
  intros H. unfold iloc_last. destruct (rev l) as [|y t] eqn:E.
  - exfalso. apply H. rewrite <- (rev_involutive l), E. reflexivity.
  - now exists y.
Qed.

Lemma iloc_last_app {A} (l : list A) x : iloc_last (l ++ [x]) = Ok x.
Proof. unfold iloc_last. now rewrite rev_app_distr. Qed.

Lemma hybrid_signal_inv df coin_id r :
  hybrid_signal lstm_fit_predict format_f df coin_id = Ok r ->
  r = _fallback_result coin_id "no_data" \/
  r = _fallback_result coin_id "invalid_close_series" \/
  exists d col,
    df = Some d /\ df_empty d = false /\ df_get "close" d = Some col /\
    main_result lstm_fit_predict format_f col coin_id r.
Proof.
  intros H. unfold hybrid_signal in H.
  destruct df as [d|]; [|left; now injection H].
  destruct (df_empty d) eqn:He; [left; now injection H|].
  destruct (df_get "close" d) as [col|] eqn:Hc; [|left; now injection H].
  cbv zeta in H.
  destruct (isna_all (ffill (to_numeric col))) eqn:Hna;
    [right; left; now injection H|].
  right; right. exists d, col.
  split; [reflexivity|]. split; [assumption|]. split; [assumption|].
  destruct (iloc_last col) as [latest|] eqn:H0; [|discriminate].
  destruct (iloc_last (compute_rsi _ 14)) as [v1|] eqn:H1; [|discriminate].
  destruct (iloc_last (Macd.macd _)) as [v2|] eqn:H2; [|discriminate].
  destruct (iloc_last (Macd.signal _)) as [v3|] eqn:H3; [|discriminate].
  destruct (iloc_last (compute_ma _ 50)) as [v4|] eqn:H4; [|discriminate].
  destruct (iloc_last (compute_ma _ 200)) as [v5|] eqn:H5; [|discriminate].
  cbn [bind] in H.
  destruct (predict_next_price _ _ _ _ _) as [[[pp pct] meta]|e] eqn:Hp;
    cbn [try_except bind] in H.
  - destruct (py_float latest) as [lc|] eqn:Hf; [|discriminate].
    cbn [bind] in H. injection H as <-. unfold main_result. cbn.
    repeat split; try assumption; try reflexivity.
    + now exists latest.
    + now left.
  - destruct (py_float latest) as [lc|] eqn:Hf; [|discriminate].
    cbn [bind] in H. injection H as <-. unfold main_result. cbn.
    repeat split; try assumption; try reflexivity.
    + now exists latest.
    + right. now exists e.
Qed.

Lemma ffill_from_length p s : List.length (ffill_from p s) = List.length s.
Proof. revert p. induction s; simpl; intros; [reflexivity|now rewrite IHs]. Qed.

Lemma ewm_from_length a st s : List.length (ewm_from a st s) = List.length s.
Proof. revert st. induction s; simpl; intros; [reflexivity|now rewrite IHs]. Qed.

Lemma ewm_mean_length span s : List.length (ewm_mean span s) = List.length s.
Proof.
  unfold ewm_mean, prep_values. destruct s; cbn [map List.length];
    [reflexivity|].
  now rewrite ewm_from_length, length_map.
Qed.

Lemma compute_macd_length s :
  List.length (Macd.macd (compute_macd s)) = List.length s /\
  List.length (Macd.signal (compute_macd s)) = List.length s.
Proof.
  unfold compute_macd. cbn [Macd.macd Macd.signal].
  rewrite ewm_mean_length, zip_with_length;
    rewrite !ewm_mean_length; auto.
Qed.

Lemma compute_ma_length s w : List.length (compute_ma s w) = List.length s.
Proof. apply rolling_mean_length. Qed.

Lemma iloc_last_of_length {A B} (l : list A) (l' : list B) :
  List.length l' = List.length l -> l <> [] -> exists x, iloc_last l' = Ok x.
Proof.
  intros Hlen Hl. apply iloc_last_nonempty. intros ->.
  destruct l; [now apply Hl|discriminate].
Qed.

(** The engine returns a result whenever the last cell of the close
    column reads as a number, whatever the forecasting model does. *)
Lemma hybrid_signal_returns df coin_id :
  (forall d col c,
      df = Some d -> df_get "close" d = Some col -> iloc_last col = Ok c ->
      exists v, c = CNum v) ->
  exists r, hybrid_signal lstm_fit_predict format_f df coin_id = Ok r.
Proof.
  intros Hnum. unfold hybrid_signal.
  destruct df as [d|]; [|eauto].
  destruct (df_empty d) eqn:He; [eauto|].
  destruct (df_get "close" d) as [col|] eqn:Hc; [|eauto].
  cbv zeta.
  destruct (isna_all (ffill (to_numeric col))) eqn:Hna; [eauto|].
  set (close := ffill (to_numeric col)) in *.
  assert (Hlen : List.length close = List.length col).
  { unfold close, ffill, to_numeric. now rewrite ffill_from_length, length_map. }
  assert (Hne : col <> []).
  { intros ->. discriminate Hna. }
  assert (Hne' : close <> []).
  { intros E. rewrite E in Hlen. destruct col; [now apply Hne|discriminate]. }
  destruct (iloc_last_nonempty col Hne) as [latest H0]. rewrite H0.
  destruct (Hnum d col latest eq_refl Hc H0) as [v ->].
  destruct (iloc_last_of_length close _ (compute_rsi_length close 14) Hne')
    as [v1 ->].
  destruct (iloc_last_of_length close _ (proj1 (compute_macd_length close)) Hne')
    as [v2 ->].
  destruct (iloc_last_of_length close _ (proj2 (compute_macd_length close)) Hne')
    as [v3 ->].
  destruct (iloc_last_of_length close _ (compute_ma_length close 50) Hne')
    as [v4 ->].
  destruct (iloc_last_of_length close _ (compute_ma_length close 200) Hne')
    as [v5 ->].
  cbn [bind].
  destruct (predict_next_price _ _ _ _ _) as [[[pp pct] meta]|e];
    cbn [try_except bind py_float]; eauto.
Qed.

(** The engine raises only at [float(latest["close"])], with the exception
    of that conversion. *)
Lemma hybrid_signal_raises_inv df coin_id e :
  hybrid_signal lstm_fit_predict format_f df coin_id = Raise e ->
  exists d col latest,
    df = Some d /\ df_get "close" d = Some col /\
    iloc_last col = Ok latest /\ py_float latest = Raise e.
Proof.
  unfold hybrid_signal.
  destruct df as [d|]; [|discriminate].
  destruct (df_empty d) eqn:He; [discriminate|].
  destruct (df_get "close" d) as [col|] eqn:Hc; [|discriminate].
  cbv zeta.
  destruct (isna_all (ffill (to_numeric col))) eqn:Hna; [discriminate|].
  set (close := ffill (to_numeric col)) in *.
  assert (Hlen : List.length close = List.length col).
  { unfold close, ffill, to_numeric. now rewrite ffill_from_length, length_map. }
  assert (Hne : col <> []).
  { intros ->. discriminate Hna. }
  assert (Hne' : close <> []).
  { intros E. rewrite E in Hlen. destruct col; [now apply Hne|discriminate]. }
  destruct (iloc_last_nonempty col Hne) as [latest H0]. rewrite H0.
  destruct (iloc_last_of_length close _ (compute_rsi_length close 14) Hne')
    as [v1 ->].
  destruct (iloc_last_of_length close _ (proj1 (compute_macd_length close)) Hne')
    as [v2 ->].
  destruct (iloc_last_of_length close _ (proj2 (compute_macd_length close)) Hne')
    as [v3 ->].
  destruct (iloc_last_of_length close _ (compute_ma_length close 50) Hne')
    as [v4 ->].
  destruct (iloc_last_of_length close _ (compute_ma_length close 200) Hne')
    as [v5 ->].
  cbn [bind]. intros H. exists d, col, latest.
  repeat split; try assumption.
  destruct (py_float latest) as [lc|e'] eqn:Hf.
  - destruct (predict_next_price _ _ _ _ _) as [[[pp pct] meta]|e0];
      cbn [try_except bind] in H; discriminate.
  - destruct (predict_next_price _ _ _ _ _) as [[[pp pct] meta]|e0];
      cbn [try_except bind] in H; congruence.
Qed.

(** When the forecasting model raises and the engine returns, the result
    carries the last close as predicted price, a change of 0.0 and
    fallback true. *)
Lemma forecast_exception_substituted d col coin_id r e :
  df_empty d = false -> df_get "close" d = Some col ->
  predict_next_price lstm_fit_predict (Some (ffill (to_numeric col))) 30 3 48
    = Raise e ->
  hybrid_signal lstm_fit_predict format_f (Some d) coin_id = Ok r ->
  r = _fallback_result coin_id "invalid_close_series" \/
  (predicted_price r = Ind.latest_close (indicators r) /\
   predicted_change_pct r = Fin 0 /\
   fallback r = true /\
   Meta.reason (model_meta r) = Some (str_of_exn e)).
Proof.
  intros He Hc Hp H. unfold hybrid_signal in H.
  rewrite He, Hc in H. cbv zeta in H.
  destruct (isna_all _); [left; now injection H|]. right.
  destruct (iloc_last col) as [latest|]; [|discriminate].
  destruct (iloc_last (compute_rsi _ 14)) as [v1|]; [|discriminate].
  destruct (iloc_last (Macd.macd _)) as [v2|]; [|discriminate].
  destruct (iloc_last (Macd.signal _)) as [v3|]; [|discriminate].
  destruct (iloc_last (compute_ma _ 50)) as [v4|]; [|discriminate].
  destruct (iloc_last (compute_ma _ 200)) as [v5|]; [|discriminate].
  cbn [bind] in H. rewrite Hp in H. cbn [try_except] in H.
  destruct (py_float latest) as [lc|]; [|discriminate].
  cbn [bind] in H. injection H as <-. cbn. repeat split.
Qed.

End EngineShape.

(** ** The technical score and the base signal *)

Section Score.

Lemma lt_gt_exclusive (x y : fl) : ((x <? y) && (x >? y))%fl = false.
Proof.
  unfold gtb. destruct (ltb x y) eqn:E; [|reflexivity].
  now rewrite (ltb_asym _ _ E).
Qed.

Lemma rsi_tests_exclusive (x : fl) :
  ((x <? of_Z 30) && (x >? of_Z 70))%fl = false.
Proof.
  unfold gtb. destruct (ltb x (of_Z 30)) eqn:E; [|reflexivity].
  destruct (ltb (of_Z 70) x) eqn:E'; [|reflexivity].
  pose proof (ltb_trans _ _ _ E' E) as H. discriminate H.
Qed.

Lemma vote_range (a b : bool) : (-1 <= vote a b <= 1)%Z.
Proof. destruct a, b; simpl; lia. Qed.

End Score.

(** C1.  For all latest indicator values, the technical score that
    [hybrid_signal] computes (lines 48-62) is the sum of one vote per
    indicator, [+1], [-1] or [0], the two tests of an indicator never
    holding together; it lies in [-3, 3]; and the base signal (lines
    64-68) is BUY when the score is at least 2, SELL when it is at most
    -2, HOLD otherwise. *)
Theorem technical_score_spec :
  forall rsi macd macd_signal ma50 ma200 : fl,
    let score := technical_score rsi macd macd_signal ma50 ma200 in
    score = score_spec rsi macd macd_signal ma50 ma200 /\
    ((rsi <? of_Z 30) && (rsi >? of_Z 70))%fl = false /\
    ((macd >? macd_signal) && (macd <? macd_signal))%fl = false /\
    ((ma50 >? ma200) && (ma50 <? ma200))%fl = false /\
    (-3 <= score <= 3)%Z /\
    ((2 <= score)%Z -> base_signal_of score = BUY) /\
    ((score <= -2)%Z -> base_signal_of score = SELL) /\
    ((-2 < score < 2)%Z -> base_signal_of score = HOLD).
Proof.
  intros rsi macd sig ma50 ma200 score.
  pose proof (rsi_tests_exclusive rsi) as Hr.
  pose proof (lt_gt_exclusive macd sig) as Hm.
  pose proof (lt_gt_exclusive ma50 ma200) as Ht.
  rewrite andb_comm in Hm. rewrite andb_comm in Ht.
  assert (Hs : score = score_spec rsi macd sig ma50 ma200).
  { subst score. unfold technical_score, score_spec, vote.
    destruct (rsi <? of_Z 30)%fl, (rsi >? of_Z 70)%fl; try discriminate Hr;
    destruct (macd >? sig)%fl, (macd <? sig)%fl; try discriminate Hm;
    destruct (ma50 >? ma200)%fl, (ma50 <? ma200)%fl; try discriminate Ht;
    reflexivity. }
  assert (Hb : (-3 <= score <= 3)%Z).
  { rewrite Hs. unfold score_spec.
    pose proof (vote_range (rsi <? of_Z 30)%fl (rsi >? of_Z 70)%fl).
    pose proof (vote_range (macd >? sig)%fl (macd <? sig)%fl).
    pose proof (vote_range (ma50 >? ma200)%fl (ma50 <? ma200)%fl).
    lia. }
  repeat split; try assumption; try apply Hb; unfold base_signal_of; intros H.
  - destruct (Z.geb_spec score 2); [reflexivity|lia].
  - destruct (Z.geb_spec score 2); [lia|].
    destruct (Z.leb_spec score (-2)); [reflexivity|lia].
  - destruct (Z.geb_spec score 2); [lia|].
    destruct (Z.leb_spec score (-2)); [lia|reflexivity].
Qed.

(** ** The forecast override *)

Section Override.

Lemma leb_geb_thresholds (p : fl) :
  (p <=? Fin (- 1 # 100))%fl = true -> (p >=? Fin (1 # 100))%fl = false.
Proof.
  unfold geb, leb. intros H. apply orb_true_iff in H.
  apply orb_false_iff.
  destruct p as [| |q|]; simpl in *; try (split; reflexivity);
    try (destruct H; discriminate).
  assert (Hq : q <= - 1 # 100).
  { destruct H as [H|H].
    - destruct (q ?= - 1 # 100) eqn:E; try discriminate.
      rewrite <- Qlt_alt in E. lra.
    - apply Qeq_bool_iff in H. lra. }
  split.
  - destruct ((1 # 100) ?= q) eqn:E; try reflexivity.
    rewrite <- Qlt_alt in E. lra.
  - apply Qeq_bool_false. lra.
Qed.

(** The override on its own, for every base signal and every forecast. *)
Lemma final_signal_of_cases (base : string) (pct : fl) :
  (base = BUY -> final_signal_of base pct = BUY) /\
  (base = SELL -> final_signal_of base pct = SELL) /\
  (base = HOLD -> (pct >=? Fin (1 # 100))%fl = true ->
     final_signal_of base pct = BUY) /\
  (base = HOLD -> (pct <=? Fin (- 1 # 100))%fl = true ->
     final_signal_of base pct = SELL) /\
  (base = HOLD -> (pct >=? Fin (1 # 100))%fl = false ->
     (pct <=? Fin (- 1 # 100))%fl = false ->
     final_signal_of base pct = HOLD).
Proof.
  unfold final_signal_of. repeat split; intros ->.
  - destruct (pct >=? _)%fl, (pct <=? _)%fl; reflexivity.
  - destruct (pct >=? _)%fl, (pct <=? _)%fl; reflexivity.
  - intros ->. reflexivity.
  - intros H. rewrite (leb_geb_thresholds _ H), H. reflexivity.
  - intros -> ->. reflexivity.
Qed.

End Override.

(** C2.  Whatever the data and whatever the forecasting model returns,
    the signal of a result is the forecast override applied to the base
    signal of its indicators; a HOLD base becomes BUY on a forecast of at
    least +1% and SELL on one of at most -1%; a BUY base stays BUY and a
    SELL base stays SELL, so the override never flips a directional base
    signal. *)
Theorem forecast_override_never_flips :
  forall lstm_fit_predict format_f df coin_id r,
    hybrid_signal lstm_fit_predict format_f df coin_id = Ok r ->
    let ind := indicators r in
    let pct := predicted_change_pct r in
    let base :=
      base_signal_of
        (technical_score (Ind.rsi ind) (Ind.macd ind) (Ind.macd_signal ind)
                         (Ind.ma50 ind) (Ind.ma200 ind)) in
    signal r = final_signal_of base pct /\
    (base = HOLD -> (pct >=? Fin (1 # 100))%fl = true -> signal r = BUY) /\
    (base = HOLD -> (pct <=? Fin (- 1 # 100))%fl = true -> signal r = SELL) /\
    (base = BUY -> signal r = BUY /\ signal r <> SELL) /\
    (base = SELL -> signal r = SELL /\ signal r <> BUY).
Proof.
  intros lstm fmt df coin_id r H ind pct base.
  assert (Hsig : signal r = final_signal_of base pct).
  { destruct (hybrid_signal_inv _ _ _ _ _ H) as [-> | [-> | Hmain]].
    - reflexivity.
    - reflexivity.
    - destruct Hmain as (d & col & _ & _ & _ & Hm).
      unfold main_result in Hm. apply Hm. }
  destruct (final_signal_of_cases base pct) as (Hb & Hs & Hu & Hd & _).
  split; [assumption|]. rewrite Hsig.
  repeat split; auto.
  - rewrite (Hb H0). discriminate.
  - rewrite (Hs H0). discriminate.
Qed.

(** Three runs on forty rows, where the forecast is used.  Rising closes
    give a BUY base, which a forecast of -35% leaves at BUY; flat closes
    give a HOLD base, which a forecast of +5% turns into BUY and one of
    -10% into SELL. *)
Lemma forecast_override_never_flips_witness :
  (exists r,
      hybrid_signal demo_lstm' demo_format (Some (demo_frame 40)) "bitcoin"
        = Ok r /\
      base_signal_of
        (technical_score (Ind.rsi (indicators r)) (Ind.macd (indicators r))
           (Ind.macd_signal (indicators r)) (Ind.ma50 (indicators r))
           (Ind.ma200 (indicators r))) = BUY /\
      (predicted_change_pct r <=? Fin (- 1 # 100))%fl = true /\
      signal r = BUY /\ signal r <> SELL) /\
  (exists r,
      hybrid_signal demo_lstm demo_format (Some (flat_frame 40)) "bitcoin"
        = Ok r /\
      base_signal_of
        (technical_score (Ind.rsi (indicators r)) (Ind.macd (indicators r))
           (Ind.macd_signal (indicators r)) (Ind.ma50 (indicators r))
           (Ind.ma200 (indicators r))) = HOLD /\
      (predicted_change_pct r >=? Fin (1 # 100))%fl = true /\
      signal r = BUY) /\
  (exists r,
      hybrid_signal demo_lstm' demo_format (Some (flat_frame 40)) "bitcoin"
        = Ok r /\
      base_signal_of
        (technical_score (Ind.rsi (indicators r)) (Ind.macd (indicators r))
           (Ind.macd_signal (indicators r)) (Ind.ma50 (indicators r))
           (Ind.ma200 (indicators r))) = HOLD /\
      (predicted_change_pct r <=? Fin (- 1 # 100))%fl = true /\
      signal r = SELL).
Proof.
  split; [|split].
  - assert (Hr : exists r,
               hybrid_signal demo_lstm' demo_format (Some (demo_frame 40))
                 "bitcoin" = Ok r)
      by (eexists; vm_compute; reflexivity).
    destruct Hr as [r Hr]. exists r.
    destruct (forecast_override_never_flips _ _ _ _ _ Hr)
      as (Hsig & _ & _ & Hbuy & _).
    assert (Hbase :
      base_signal_of
        (technical_score (Ind.rsi (indicators r)) (Ind.macd (indicators r))
           (Ind.macd_signal (indicators r)) (Ind.ma50 (indicators r))
           (Ind.ma200 (indicators r))) = BUY).
    { vm_compute in Hr. injection Hr as <-. vm_compute. reflexivity. }
    assert (Hpct : (predicted_change_pct r <=? Fin (- 1 # 100))%fl = true).
    { vm_compute in Hr. injection Hr as <-. vm_compute. reflexivity. }
    destruct (Hbuy Hbase) as [H1 H2]. now repeat split.
  - assert (Hr : exists r,
               hybrid_signal demo_lstm demo_format (Some (flat_frame 40))
                 "bitcoin" = Ok r)
      by (eexists; vm_compute; reflexivity).
    destruct Hr as [r Hr]. exists r.
    destruct (forecast_override_never_flips _ _ _ _ _ Hr)
      as (Hsig & Hup & _).
    assert (Hbase :
      base_signal_of
        (technical_score (Ind.rsi (indicators r)) (Ind.macd (indicators r))
           (Ind.macd_signal (indicators r)) (Ind.ma50 (indicators r))
           (Ind.ma200 (indicators r))) = HOLD).
    { vm_compute in Hr. injection Hr as <-. vm_compute. reflexivity. }
    assert (Hpct : (predicted_change_pct r >=? Fin (1 # 100))%fl = true).
    { vm_compute in Hr. injection Hr as <-. vm_compute. reflexivity. }
    repeat split; auto.
  - assert (Hr : exists r,
               hybrid_signal demo_lstm' demo_format (Some (flat_frame 40))
                 "bitcoin" = Ok r)
      by (eexists; vm_compute; reflexivity).
    destruct Hr as [r Hr]. exists r.
    destruct (forecast_override_never_flips _ _ _ _ _ Hr)
      as (Hsig & _ & Hdown & _).
    assert (Hbase :
      base_signal_of
        (technical_score (Ind.rsi (indicators r)) (Ind.macd (indicators r))
           (Ind.macd_signal (indicators r)) (Ind.ma50 (indicators r))
           (Ind.ma200 (indicators r))) = HOLD).
    { vm_compute in Hr. injection Hr as <-. vm_compute. reflexivity. }
    assert (Hpct : (predicted_change_pct r <=? Fin (- 1 # 100))%fl = true).
    { vm_compute in Hr. injection Hr as <-. vm_compute. reflexivity. }
    repeat split; auto.
Defined.

(** ** The fallback chain *)

Section FallbackChain.

Lemma ffill_from_all_nan p s :
  isnan p = true -> forallb isnan s = true ->
  forallb isnan (ffill_from p s) = true.
Proof.
  revert p. induction s as [|x s IH]; simpl; intros p Hp H; [reflexivity|].
  apply andb_prop in H. destruct H as [Hx Hs]. rewrite Hx, Hp. simpl.
  now apply IH.
Qed.

Lemma isna_all_ffill s : isna_all (ffill s) = isna_all s.
Proof.
  unfold isna_all, ffill.
  destruct (forallb isnan s) eqn:E.
  - now apply ffill_from_all_nan.
  - assert (G : forall p, forallb isnan s = false ->
                          forallb isnan (ffill_from p s) = false).
    { clear E. induction s as [|x s IH]; simpl; intros p H; [discriminate|].
      destruct (isnan x) eqn:Ex; simpl in *.
      - destruct (isnan p); simpl; [now apply IH|reflexivity].
      - now rewrite Ex. }
    now apply G.
Qed.

Lemma isna_all_to_numeric col :
  isna_all (to_numeric col) = forallb (fun c => isnan (to_numeric_cell c)) col.
Proof.
  unfold isna_all, to_numeric.
  induction col as [|c col IH]; simpl; [reflexivity|now rewrite IH].
Qed.

End FallbackChain.

(** C3.  The fallback chain of [hybrid_signal], in order: a frame that is
    absent, empty or without a close column gives the fallback result
    with reason "no_data"; otherwise a close column in which no value is
    a number after coercion gives the fallback result with reason
    "invalid_close_series".  A fallback result has signal HOLD, all
    indicators 0.0 but rsi 50.0, predicted price and change 0.0, one
    explanation line that states the reason, and fallback true. *)
Theorem fallback_chain :
  forall lstm_fit_predict format_f (coin_id : string),
    hybrid_signal lstm_fit_predict format_f None coin_id
      = Ok (_fallback_result coin_id "no_data") /\
    (forall d,
        df_empty d = true \/ df_has "close" d = false ->
        hybrid_signal lstm_fit_predict format_f (Some d) coin_id
          = Ok (_fallback_result coin_id "no_data")) /\
    (forall d col,
        df_empty d = false -> df_get "close" d = Some col ->
        forallb (fun c => isnan (to_numeric_cell c)) col = true ->
        hybrid_signal lstm_fit_predict format_f (Some d) coin_id
          = Ok (_fallback_result coin_id "invalid_close_series")) /\
    (forall reason,
        let r := _fallback_result coin_id reason in
        signal r = HOLD /\
        indicators r = Ind.mk (Fin 50) (Fin 0) (Fin 0) (Fin 0) (Fin 0) (Fin 0) /\
        predicted_price r = Fin 0 /\
        predicted_change_pct r = Fin 0 /\
        explanation r =
          [("Data harga tidak tersedia (" ++ reason ++ ") -> fallback HOLD.")%string] /\
        Meta.reason (model_meta r) = Some reason /\
        fallback r = true).
Proof.
  intros lstm fmt coin_id. split; [reflexivity|]. split; [|split].
  - intros d [H|H]; unfold hybrid_signal.
    + rewrite H. reflexivity.
    + unfold df_has in H. destruct (df_get "close" d); [discriminate|].
      destruct (df_empty d); reflexivity.
  - intros d col He Hc Hna. unfold hybrid_signal. rewrite He, Hc. cbv zeta.
    now rewrite isna_all_ffill, isna_all_to_numeric, Hna.
  - intros reason. cbn. repeat split.
Qed.

(** ** The forecasting model's own fallbacks *)

Section ModelFallback.

Lemma iloc_last_cons {A} (x y : A) l :
  iloc_last (x :: y :: l) = iloc_last (y :: l).
Proof.
  unfold iloc_last. simpl.
  destruct (rev l ++ [y]) as [|z t] eqn:E.
  - destruct (rev l); discriminate.
  - reflexivity.
Qed.

Lemma last_cons_default {A} (x d : A) l : last (x :: l) d = last l x.
Proof.
  revert x d. induction l as [|y l IH]; intros x d; [reflexivity|].
  change (last (x :: y :: l) d) with (last (y :: l) d).
  rewrite IH. symmetry. apply IH.
Qed.

Lemma iloc_last_ffill_from p x s :
  iloc_last (ffill_from p (x :: s))
  = Ok (last (filter (fun v => negb (isnan v)) (x :: s)) p).
Proof.
  revert p x. induction s as [|x' s IH]; intros p x.
  - simpl. destruct (isnan x); reflexivity.
  - change (ffill_from p (x :: x' :: s))
      with ((if isnan x then p else x)
              :: ffill_from (if isnan x then p else x) (x' :: s)).
    destruct (ffill_from (if isnan x then p else x) (x' :: s)) as [|y t] eqn:E;
      [discriminate|].
    rewrite iloc_last_cons, <- E, IH.
    change (filter (fun v => negb (isnan v)) (x :: x' :: s))
      with (if negb (isnan x)
            then x :: filter (fun v => negb (isnan v)) (x' :: s)
            else filter (fun v => negb (isnan v)) (x' :: s)).
    destruct (isnan x); cbn [negb]; [reflexivity|].
    now rewrite last_cons_default.
Qed.

Lemma iloc_last_ffill s :
  s <> [] -> iloc_last (ffill s) = Ok (last_observed s).
Proof.
  destruct s as [|x s]; [congruence|]. intros _. apply iloc_last_ffill_from.
Qed.

End ModelFallback.

(** C4.  On a series that is not empty and whose forward-filled length is
    below [lookback + 2], [predict_next_price] does not train, whatever
    the training would do: it returns the last observed price, a change
    of 0.0, and a meta with [trained_epochs = 0], [fallback = true] and
    [reason = "insufficient_data"]. *)
Theorem predict_insufficient_data :
  forall lstm_fit_predict (series : list fl) (lookback epochs hidden_size : Z),
    series <> [] ->
    (Z.of_nat (List.length (ffill series)) < lookback + 2)%Z ->
    predict_next_price lstm_fit_predict (Some series) lookback epochs hidden_size
    = Ok (last_observed series, Fin 0,
          Meta.mk (Some 0%Z) (Some true) (Some []) (Some "insufficient_data"%string)).
Proof.
  intros lstm s lookback epochs hidden Hne Hlen.
  unfold predict_next_price. destruct s as [|x s]; [congruence|].
  apply Z.ltb_lt in Hlen. rewrite Hlen.
  rewrite iloc_last_ffill by discriminate. reflexivity.
Qed.

Lemma predict_insufficient_data_witness :
  [Fin 1; Fin 2; NaN] <> [] /\
  (Z.of_nat (List.length (ffill [Fin 1; Fin 2; NaN])) < 30 + 2)%Z /\
  predict_next_price demo_lstm (Some [Fin 1; Fin 2; NaN]) 30 3 48
  = Ok (Fin 2, Fin 0,
        Meta.mk (Some 0%Z) (Some true) (Some []) (Some "insufficient_data"%string)).
Proof.
  split; [discriminate|]. split; [vm_compute; reflexivity|].
  apply (predict_insufficient_data demo_lstm [Fin 1; Fin 2; NaN] 30 3 48).
  - discriminate.
  - vm_compute. reflexivity.
Defined.

(** C10.  On a series that is absent or empty, [predict_next_price]
    returns a price of 0.0, a change of 0.0 and a meta with
    [trained_epochs = 0], [fallback = true], an empty loss history and no
    reason. *)
Theorem predict_no_series :
  forall lstm_fit_predict (lookback epochs hidden_size : Z),
    let meta := Meta.mk (Some 0%Z) (Some true) (Some []) None in
    predict_next_price lstm_fit_predict None lookback epochs hidden_size
      = Ok (Fin 0, Fin 0, meta) /\
    predict_next_price lstm_fit_predict (Some []) lookback epochs hidden_size
      = Ok (Fin 0, Fin 0, meta) /\
    Meta.fallback meta = Some true /\
    Meta.trained_epochs meta = Some 0%Z /\
    Meta.reason meta = None.
Proof. intros. repeat split. Qed.

(** ** The three signals and the RSI range *)

Section WellFormed.

Lemma base_signal_of_is_signal score : is_signal (base_signal_of score).
Proof.
  unfold base_signal_of, is_signal.
  destruct (score >=? 2)%Z; [now left|].
  destruct (score <=? -2)%Z; [now right; right|now right; left].
Qed.

Lemma final_signal_of_is_signal base pct :
  is_signal base -> is_signal (final_signal_of base pct).
Proof.
  unfold final_signal_of, is_signal. intros H.
  destruct (_ && _); [now left|].
  destruct (_ && _); [now right; right|assumption].
Qed.

(** Every result of the engine carries one of the three signals. *)
Lemma hybrid_signal_is_signal lstm_fit_predict format_f df coin_id r :
  hybrid_signal lstm_fit_predict format_f df coin_id = Ok r ->
  is_signal (signal r).
Proof.
  intros H.
  destruct (hybrid_signal_inv _ _ _ _ _ H) as [-> | [-> | Hmain]];
    [right; left; reflexivity|right; left; reflexivity|].
  destruct Hmain as (d & col & _ & _ & _ & Hm). unfold main_result in Hm.
  destruct Hm as (_ & _ & _ & _ & _ & _ & _ & _ & Hsig & _).
  rewrite Hsig. apply final_signal_of_is_signal, base_signal_of_is_signal.
Qed.

End WellFormed.

(** C7.  In float arithmetic the RSI leaves [0, 100].  On thirty-two
    positive closes (five large ones, then closes near 5) the running sum
    of the losses keeps the rounding error of the large values after they
    left the window: at the last position the average loss is negative,
    and the RSI that [compute_rsi] returns there, the one [hybrid_signal]
    reads, is about -0.21.  With exact means the RSI there is 500/9. *)
Theorem rsi_leaves_its_range_in_floats :
  List.length F64.uneven_closes = 32%nat /\
  (exists avg_loss,
      nth_error
        (F64.rolling_mean 14 14
           (map (fun x => PrimFloat.opp
                            (if PrimFloat.ltb PrimFloat.zero x
                             then PrimFloat.zero else x))
                (F64.diff F64.uneven_closes))) 31
      = Some avg_loss /\
      PrimFloat.ltb avg_loss PrimFloat.zero = true) /\
  (exists rsi,
      nth_error (F64.compute_rsi F64.uneven_closes 14) 31 = Some rsi /\
      PrimFloat.ltb rsi PrimFloat.zero = true /\
      PrimFloat.ltb rsi
        (PrimFloat.opp (PrimFloat.div (F64.of_Z 1) (F64.of_Z 5))) = true) /\
  nth_error (compute_rsi uneven_closes_exact 14) 31 = Some (Fin (500 # 9)).
Proof.
  split; [reflexivity|]. split; [|split].
  - eexists. split; vm_compute; reflexivity.
  - eexists. split; [vm_compute; reflexivity|].
    split; vm_compute; reflexivity.
  - vm_compute. reflexivity.
Qed.

(** ** Exceptions that leave the engine *)

(** C8.  On the frame whose close column is [1.0, "abc"] the engine
    coerces the column, computes the indicators and the forecast, and
    then raises: [float(latest["close"])] at line 82 reads the cell of
    the frame, not the coerced series, and the [ValueError] leaves
    [hybrid_signal], whatever the forecasting model does. *)
Theorem hybrid_signal_raises_on_text_close :
  forall lstm_fit_predict format_f,
    hybrid_signal lstm_fit_predict format_f (Some text_close_frame) "bitcoin"
    = Raise (ValueError "could not convert string to float: 'abc'").
Proof. intros. vm_compute. reflexivity. Qed.

(** ** Indicators of a flat series *)

Section FlatSeries.

Lemma firstn_repeat {A} (x : A) i n :
  firstn i (repeat x n) = repeat x (Nat.min i n).
Proof.
  revert n. induction i as [|i IH]; intros [|n]; simpl; try reflexivity.
  now rewrite IH.
Qed.

Lemma skipn_repeat {A} (x : A) i n :
  skipn i (repeat x n) = repeat x (n - i).
Proof.
  revert n. induction i as [|i IH]; intros [|n]; simpl; try reflexivity.
  apply IH.
Qed.

Lemma sub_self (c : Q) : (Fin c - Fin c)%fl = Fin 0.
Proof.
  unfold sub. simpl. f_equal.
  change 0 with (Qred 0). apply Qred_complete.
  rewrite Qred_correct. ring.
Qed.

Lemma diff_from_flat (c : Q) n :
  diff_from (Fin c) (repeat (Fin c) n) = repeat (Fin 0) n.
Proof.
  induction n as [|n IH]; [reflexivity|].
  cbn [repeat diff_from]. now rewrite sub_self, IH.
Qed.

Lemma diff_flat (c : Q) n :
  diff (repeat (Fin c) (S n)) = NaN :: repeat (Fin 0) n.
Proof. unfold diff. cbn [repeat diff_from]. now rewrite diff_from_flat. Qed.

(** Gains and losses of a flat series: nothing at the first position,
    zero afterwards. *)
Lemma gain_flat (c : Q) n :
  clip_lower (Fin 0) (diff (repeat (Fin c) (S n))) = NaN :: repeat (Fin 0) n.
Proof.
  rewrite diff_flat. unfold clip_lower. cbn [map]. now rewrite map_repeat.
Qed.

Lemma loss_flat (c : Q) n :
  map neg (clip_upper (Fin 0) (diff (repeat (Fin c) (S n))))
  = NaN :: repeat (Fin 0) n.
Proof.
  rewrite diff_flat. unfold clip_upper. cbn [map]. now rewrite !map_repeat.
Qed.

Lemma filter_obs_zeros n :
  filter (fun x => negb (isnan x)) (repeat (Fin 0) n) = repeat (Fin 0) n.
Proof. induction n as [|n IH]; simpl; [reflexivity|now rewrite IH]. Qed.

Lemma sum_zeros_from n : fold_left add (repeat (Fin 0) n) (Fin 0) = Fin 0.
Proof. induction n as [|n IH]; [reflexivity|exact IH]. Qed.

Lemma window_mean_zeros minp n :
  (1 <= n)%nat -> (minp <= n)%nat ->
  window_mean minp (repeat (Fin 0) n) = Fin 0.
Proof.
  intros Hn Hm. unfold window_mean. rewrite filter_obs_zeros, repeat_length.
  assert (E1 : (minp <=? n)%nat = true) by now apply Nat.leb_le.
  assert (E2 : (0 <? n)%nat = true) by now apply Nat.ltb_lt.
  rewrite E1, E2. cbn [andb]. unfold sum. rewrite sum_zeros_from.
  unfold of_Z, div.
  assert (Hq : 0 < inject_Z (Z.of_nat n)).
  { change 0 with (inject_Z 0). rewrite <- Zlt_Qlt. lia. }
  rewrite Qeq_bool_false by lra. reflexivity.
Qed.

(** The trailing windows of [NaN, 0, 0, ...]. *)
Lemma window_short w n i :
  (i < w)%nat -> (i <= n)%nat ->
  window_at w (NaN :: repeat (Fin 0) n) i = NaN :: repeat (Fin 0) i.
Proof.
  intros Hi Hn. unfold window_at.
  replace (S i - w)%nat with 0%nat by lia.
  cbn [skipn firstn]. rewrite firstn_repeat. f_equal. f_equal. lia.
Qed.

Lemma window_full w n i :
  (1 <= w)%nat -> (w <= i)%nat -> (i <= n)%nat ->
  window_at w (NaN :: repeat (Fin 0) n) i = repeat (Fin 0) w.
Proof.
  intros Hw Hi Hn. unfold window_at.
  replace (S i - w)%nat with (S (i - w)) by lia.
  cbn [skipn firstn]. rewrite firstn_repeat, skipn_repeat. f_equal. lia.
Qed.

Lemma window_mean_short w i :
  (i < w)%nat -> window_mean w (NaN :: repeat (Fin 0) i) = NaN.
Proof.
  intros Hi. unfold window_mean. cbn [filter isnan negb].
  rewrite filter_obs_zeros, repeat_length.
  assert (E : (w <=? i)%nat = false) by (apply Nat.leb_gt; lia).
  now rewrite E.
Qed.

Lemma prep_values_zeros n :
  prep_values (NaN :: repeat (Fin 0) n) = NaN :: repeat (Fin 0) n.
Proof. unfold prep_values. cbn [map isinf]. now rewrite map_repeat. Qed.

Lemma rolling_mean_flat w n :
  (1 <= w)%nat ->
  rolling_mean w w (NaN :: repeat (Fin 0) n)
  = repeat NaN (Nat.min w (S n)) ++ repeat (Fin 0) (S n - w).
Proof.
  intros Hw. unfold rolling_mean, rolling_mean_of. rewrite prep_values_zeros.
  cbn [List.length]. rewrite repeat_length.
  replace (S n) with (Nat.min w (S n) + (S n - w))%nat at 1 by lia.
  rewrite seq_app, map_app. f_equal.
  - transitivity (map (fun _ : nat => NaN) (seq 0 (Nat.min w (S n)))).
    + apply map_ext_in. intros i Hi.
      apply in_seq in Hi. rewrite window_short by lia.
      apply window_mean_short. lia.
    + now rewrite map_const, length_seq.
  - transitivity
      (map (fun _ : nat => Fin 0) (seq (0 + Nat.min w (S n)) (S n - w))).
    + apply map_ext_in. intros i Hi.
      apply in_seq in Hi. rewrite window_full by lia.
      apply window_mean_zeros; lia.
    + now rewrite map_const, length_seq.
Qed.

Lemma zip_with_diag f (l : list fl) :
  zip_with f l l = map (fun x => f x x) l.
Proof. induction l as [|x l IH]; simpl; [reflexivity|now rewrite IH]. Qed.

(** The RSI of a flat series: 50 while the window is incomplete, then 0. *)
Lemma compute_rsi_flat (c : Q) (w n : nat) :
  (1 <= w)%nat ->
  compute_rsi (repeat (Fin c) n) w
  = repeat (Fin 50) (Nat.min w n) ++ repeat (Fin 0) (n - w).
Proof.
  intros Hw. destruct n as [|n].
  - rewrite Nat.min_0_r. reflexivity.
  - rewrite compute_rsi_pointwise, gain_flat, loss_flat, zip_with_diag.
    rewrite rolling_mean_flat by assumption.
    rewrite map_app, !map_repeat. reflexivity.
Qed.

(** The exponential average of a flat series is the series. *)
Lemma ewm_from_flat alpha (c : Q) n :
  ewm_from alpha (Fin c, of_Z 1) (repeat (Fin c) n) = repeat (Fin c) n.
Proof.
  induction n as [|n IH]; [reflexivity|].
  cbn [repeat ewm_from ewm_step isnan negb fst].
  unfold neqb. rewrite eqb_refl_Fin. cbn [negb fst]. now rewrite IH.
Qed.

Lemma ewm_mean_flat span (c : Q) n :
  ewm_mean span (repeat (Fin c) n) = repeat (Fin c) n.
Proof.
  unfold ewm_mean, prep_values. rewrite map_repeat. cbn [isinf].
  destruct n as [|n]; [reflexivity|].
  cbn [repeat]. now rewrite ewm_from_flat.
Qed.

Lemma zip_sub_flat (c : Q) n :
  zip_with sub (repeat (Fin c) n) (repeat (Fin c) n) = repeat (Fin 0) n.
Proof.
  rewrite zip_with_diag, map_repeat. now rewrite sub_self.
Qed.

Lemma compute_macd_flat (c : Q) n :
  compute_macd (repeat (Fin c) n)
  = Macd.mk (repeat (Fin 0) n) (repeat (Fin 0) n) (repeat (Fin 0) n).
Proof.
  unfold compute_macd. cbv zeta.
  rewrite !ewm_mean_flat, zip_sub_flat, ewm_mean_flat, zip_sub_flat.
  reflexivity.
Qed.

End FlatSeries.

(** C5.  On twenty identical closes of 100.0 the RSI series is 50 at the
    fourteen positions where the window is incomplete and 0 afterwards;
    on every flat series of finite prices it is 50 on the first fourteen
    positions and 0 on all later ones, so it does not tend to 50.  The
    macd, signal and histogram columns of a flat series are 0 at every
    position. *)
Theorem flat_series_indicators :
  compute_rsi (repeat (Fin 100) 20) 14
    = repeat (Fin 50) 14 ++ repeat (Fin 0) 6 /\
  (forall (c : Q) (n : nat),
      compute_rsi (repeat (Fin c) n) 14
      = repeat (Fin 50) (Nat.min 14 n) ++ repeat (Fin 0) (n - 14)) /\
  (forall (c : Q) (n : nat),
      compute_macd (repeat (Fin c) n)
      = Macd.mk (repeat (Fin 0) n) (repeat (Fin 0) n) (repeat (Fin 0) n)).
Proof.
  split; [|split].
  - vm_compute. reflexivity.
  - intros c n. apply compute_rsi_flat. lia.
  - apply compute_macd_flat.
Qed.

(** ** RSI where the average loss is zero *)

Section ZeroLoss.

Lemma rsi_point_zero_loss (g l : fl) :
  eqb l (Fin 0) = true ->
  rsi_point g l = match g with Fin _ => Fin 0 | _ => Fin 50 end.
Proof.
  intros H. unfold rsi_point. rewrite H. destruct g; reflexivity.
Qed.

Lemma compute_rsi_no_nan s w v : In v (compute_rsi s w) -> isnan v = false.
Proof.
  intros H. pose proof (compute_rsi_range s w) as Hr.
  rewrite Forall_forall in Hr. apply Hr in H. destruct v; simpl in *; tauto.
Qed.

End ZeroLoss.

(** C6.  On fifteen closes rising by one the average gain at the last
    position is 1 and the average loss is 0, and the RSI there is 0, not
    100.  At every position where the average loss is zero, the value of
    the RSI series is 0 when the average gain is finite and 50 otherwise.
    The series has one value per input position and none is NaN. *)
Theorem rsi_zero_loss_is_zero :
  nth_error (rolling_mean 14 14 (clip_lower (Fin 0) (diff rising15))) 14
    = Some (Fin 1) /\
  nth_error (rolling_mean 14 14 (map neg (clip_upper (Fin 0) (diff rising15)))) 14
    = Some (Fin 0) /\
  nth_error (compute_rsi rising15 14) 14 = Some (Fin 0) /\
  (forall series window,
      compute_rsi series window
      = zip_with rsi_point
          (rolling_mean window window (clip_lower (Fin 0) (diff series)))
          (rolling_mean window window
             (map neg (clip_upper (Fin 0) (diff series))))) /\
  (forall avg_gain avg_loss,
      eqb avg_loss (Fin 0) = true ->
      rsi_point avg_gain avg_loss
      = match avg_gain with Fin _ => Fin 0 | _ => Fin 50 end) /\
  (forall series window,
      List.length (compute_rsi series window) = List.length series /\
      forall v, In v (compute_rsi series window) -> isnan v = false).
Proof.
  split; [vm_compute; reflexivity|].
  split; [vm_compute; reflexivity|].
  split; [vm_compute; reflexivity|].
  split; [apply compute_rsi_pointwise|].
  split; [apply rsi_point_zero_loss|].
  intros s w. split; [apply compute_rsi_length|apply compute_rsi_no_nan].
Qed.

(** ** The indicators and the forecasting model *)

Section Determinism.

(** The indicators of a result do not depend on the forecasting model. *)
Lemma indicators_independent_of_model
    lstm1 lstm2 format1 format2 df coin_id r1 r2 :
  hybrid_signal lstm1 format1 df coin_id = Ok r1 ->
  hybrid_signal lstm2 format2 df coin_id = Ok r2 ->
  indicators r1 = indicators r2.
Proof.
  unfold hybrid_signal.
  destruct df as [d|]; [|intros [= <-] [= <-]; reflexivity].
  destruct (df_empty d); [intros [= <-] [= <-]; reflexivity|].
  destruct (df_get "close" d) as [col|]; [|intros [= <-] [= <-]; reflexivity].
  cbv zeta.
  destruct (isna_all _); [intros [= <-] [= <-]; reflexivity|].
  destruct (iloc_last col) as [latest|]; [|discriminate].
  destruct (iloc_last (compute_rsi _ 14)) as [v1|]; [|discriminate].
  destruct (iloc_last (Macd.macd _)) as [v2|]; [|discriminate].
  destruct (iloc_last (Macd.signal _)) as [v3|]; [|discriminate].
  destruct (iloc_last (compute_ma _ 50)) as [v4|]; [|discriminate].
  destruct (iloc_last (compute_ma _ 200)) as [v5|]; [|discriminate].
  cbn [bind]. intros H1 H2.
  destruct (py_float latest) as [lc|]; cbn [bind] in *.
  - destruct (predict_next_price lstm1 _ _ _ _) as [[[p1 c1] m1]|e1];
      destruct (predict_next_price lstm2 _ _ _ _) as [[[p2 c2] m2]|e2];
      cbn [try_except bind] in *;
      injection H1 as <-; injection H2 as <-; reflexivity.
  - destruct (predict_next_price lstm1 _ _ _ _) as [[[p1 c1] m1]|e1];
      cbn [try_except bind] in *; discriminate.
Qed.

End Determinism.

(** * Further properties *)

(** ** The indicators look at the past only *)

Section Causality.

Lemma firstn_seq k start n : firstn k (seq start n) = seq start (Nat.min k n).
Proof.
  revert start n. induction k as [|k IH]; intros start [|n]; simpl;
    try reflexivity.
  now rewrite IH.
Qed.

Lemma window_at_firstn w s k i :
  (i < k)%nat -> window_at w (firstn k s) i = window_at w s i.
Proof.
  intros H. unfold window_at. rewrite firstn_firstn.
  now replace (Nat.min (S i) k) with (S i) by lia.
Qed.

Lemma rolling_mean_of_firstn w m s k :
  rolling_mean_of w m (firstn k s) = firstn k (rolling_mean_of w m s).
Proof.
  unfold rolling_mean_of. rewrite firstn_map, firstn_seq, length_firstn.
  apply map_ext_in. intros i Hi. apply in_seq in Hi.
  rewrite window_at_firstn by lia. reflexivity.
Qed.

Lemma rolling_mean_firstn w m s k :
  rolling_mean w m (firstn k s) = firstn k (rolling_mean w m s).
Proof.
  unfold rolling_mean, prep_values.
  now rewrite <- firstn_map, rolling_mean_of_firstn.
Qed.

Lemma diff_from_firstn p s k :
  diff_from p (firstn k s) = firstn k (diff_from p s).
Proof.
  revert p s. induction k as [|k IH]; intros p [|x s]; simpl; try reflexivity.
  now rewrite IH.
Qed.

Lemma zip_with_firstn f a b k :
  zip_with f (firstn k a) (firstn k b) = firstn k (zip_with f a b).
Proof.
  revert a b. induction k as [|k IH]; intros [|x a] [|y b]; simpl;
    try reflexivity.
  now rewrite IH.
Qed.

Lemma compute_rsi_firstn s w k :
  compute_rsi (firstn k s) w = firstn k (compute_rsi s w).
Proof.
  rewrite !compute_rsi_pointwise. unfold diff, clip_lower, clip_upper.
  rewrite diff_from_firstn, <- !firstn_map, !rolling_mean_firstn.
  apply zip_with_firstn.
Qed.

Lemma ewm_from_firstn alpha st s k :
  ewm_from alpha st (firstn k s) = firstn k (ewm_from alpha st s).
Proof.
  revert st s. induction k as [|k IH]; intros st [|x s]; simpl;
    try reflexivity.
  now rewrite IH.
Qed.

Lemma ewm_mean_firstn span s k :
  ewm_mean span (firstn k s) = firstn k (ewm_mean span s).
Proof.
  unfold ewm_mean, prep_values. rewrite <- firstn_map.
  destruct k as [|k], (map _ s) as [|x l]; simpl; try reflexivity.
  now rewrite ewm_from_firstn.
Qed.

End Causality.

(** X1.  The moving average has no look-ahead: for every window of at
    least one row, its values on the first [k] prices of a series are the
    first [k] values of the moving average of the whole series. *)
Theorem compute_ma_prefix :
  forall (series : list fl) (window k : nat),
    (1 <= window)%nat ->
    compute_ma (firstn k series) window = firstn k (compute_ma series window).
Proof. intros. apply rolling_mean_firstn. Qed.

Lemma compute_ma_prefix_witness :
  (1 <= 3)%nat /\
  compute_ma (firstn 2 rising15) 3 = [Fin 100; Fin (201 # 2)].
Proof.
  split; [lia|].
  rewrite (compute_ma_prefix rising15 3 2) by lia.
  vm_compute. reflexivity.
Defined.

(** X2.  The RSI has no look-ahead: its values on the first [k] prices
    are the first [k] values of the RSI of the whole series. *)
Theorem compute_rsi_prefix :
  forall (series : list fl) (window k : nat),
    compute_rsi (firstn k series) window = firstn k (compute_rsi series window).
Proof. intros. apply compute_rsi_firstn. Qed.

(** X3.  The MACD frame has no look-ahead: each of its three columns on
    the first [k] prices is the first [k] values of that column on the
    whole series. *)
Theorem compute_macd_prefix :
  forall (series : list fl) (k : nat),
    Macd.macd (compute_macd (firstn k series))
      = firstn k (Macd.macd (compute_macd series)) /\
    Macd.signal (compute_macd (firstn k series))
      = firstn k (Macd.signal (compute_macd series)) /\
    Macd.hist (compute_macd (firstn k series))
      = firstn k (Macd.hist (compute_macd series)).
Proof.
  intros s k. unfold compute_macd. cbn [Macd.macd Macd.signal Macd.hist].
  rewrite !ewm_mean_firstn, !zip_with_firstn, !ewm_mean_firstn,
    !zip_with_firstn.
  repeat split.
Qed.

(** X4.  Every indicator series is aligned with its input: the moving
    average over a window of at least one row, the RSI and the three MACD
    columns have one value per price. *)
Theorem indicators_aligned :
  forall (series : list fl) (window : nat),
    (1 <= window)%nat ->
    List.length (compute_ma series window) = List.length series /\
    List.length (compute_rsi series window) = List.length series /\
    List.length (Macd.macd (compute_macd series)) = List.length series /\
    List.length (Macd.signal (compute_macd series)) = List.length series /\
    List.length (Macd.hist (compute_macd series)) = List.length series.
Proof.
  intros s w _.
  destruct (compute_macd_length s) as [Hm Hs].
  repeat split; try assumption.
  - apply compute_ma_length.
  - apply compute_rsi_length.
  - unfold compute_macd in *. cbn [Macd.macd Macd.signal Macd.hist] in *.
    rewrite zip_with_length; [assumption|]. now rewrite Hm, Hs.
Qed.

Lemma indicators_aligned_witness :
  (1 <= 14)%nat /\
  List.length (compute_ma rising15 14) = 15%nat /\
  List.length (compute_rsi rising15 14) = 15%nat /\
  List.length (Macd.hist (compute_macd rising15)) = 15%nat.
Proof.
  split; [lia|].
  destruct (indicators_aligned rising15 14 ltac:(lia))
    as (H1 & H2 & _ & _ & H5).
  rewrite H1, H2, H5. repeat split.
Defined.

(** ** Warm-up of the rolling windows *)

Section WarmUp.

Lemma filter_length_le {A} (f : A -> bool) l :
  (List.length (filter f l) <= List.length l)%nat.
Proof.
  induction l as [|x l IH]; simpl; [lia|]. destruct (f x); simpl; lia.
Qed.

(** A window that starts at the first position of a series of
    differences holds less than [w] observations. *)
Lemma window_mean_head_nan w t i :
  (i < w)%nat ->
  window_mean w (window_at w (NaN :: t) i) = NaN.
Proof.
  intros Hi. unfold window_at, window_mean.
  replace (S i - w)%nat with 0%nat by lia.
  cbn [skipn firstn filter isnan negb].
  pose proof (filter_length_le (fun x => negb (isnan x)) (firstn i t)) as H1.
  pose proof (firstn_le_length i t) as H2.
  assert (E : (w <=? List.length
                 (filter (fun x => negb (isnan x)) (firstn i t)))%nat = false)
    by (apply Nat.leb_gt; lia).
  now rewrite E.
Qed.

Lemma rolling_mean_head_nan w t :
  firstn w (rolling_mean w w (NaN :: t))
  = repeat NaN (Nat.min w (S (List.length t))).
Proof.
  unfold rolling_mean, rolling_mean_of, prep_values. cbn [map isinf].
  rewrite firstn_map, firstn_seq.
  cbn [List.length]. rewrite length_map.
  transitivity
    (map (fun _ : nat => NaN) (seq 0 (Nat.min w (S (List.length t))))).
  - apply map_ext_in. intros i Hi. apply in_seq in Hi.
    apply window_mean_head_nan. lia.
  - now rewrite map_const, length_seq.
Qed.

Lemma diff_head_nan x s : diff (x :: s) = NaN :: diff_from x s.
Proof. unfold diff. cbn [diff_from]. now destruct x. Qed.

Lemma compute_rsi_warm_up s w :
  firstn w (compute_rsi s w) = repeat (Fin 50) (Nat.min w (List.length s)).
Proof.
  destruct s as [|x s]; [now rewrite Nat.min_0_r, firstn_nil|].
  rewrite compute_rsi_pointwise, diff_head_nan.
  unfold clip_lower, clip_upper. cbn [map ltb gtb neg].
  rewrite <- zip_with_firstn, !rolling_mean_head_nan.
  rewrite !length_map, diff_from_length, zip_with_diag, map_repeat.
  reflexivity.
Qed.

(** Before the window is full the moving average is the mean of all the
    prices so far, whatever the window. *)
Lemma window_at_expanding w s i :
  (i < w)%nat -> window_at w s i = firstn (S i) s.
Proof.
  intros H. unfold window_at. now replace (S i - w)%nat with 0%nat by lia.
Qed.

Lemma compute_ma_short s w1 w2 :
  (List.length s <= w1)%nat -> (List.length s <= w2)%nat ->
  compute_ma s w1 = compute_ma s w2.
Proof.
  intros H1 H2. unfold compute_ma, rolling_mean, rolling_mean_of.
  apply map_ext_in. intros i Hi. apply in_seq in Hi.
  unfold prep_values in Hi. rewrite length_map in Hi.
  now rewrite !window_at_expanding by lia.
Qed.

End WarmUp.

(** X5.  The first [window] values of every RSI series are the neutral
    50: no RSI is computed before [window] price changes are known. *)
Theorem rsi_warm_up_is_neutral :
  forall (series : list fl) (window : nat),
    firstn window (compute_rsi series window)
    = repeat (Fin 50) (Nat.min window (List.length series)).
Proof. intros. apply compute_rsi_warm_up. Qed.

(** X6.  On a series no longer than both windows, two moving averages
    coincide: each value is the mean of all the prices so far.  With at
    most 50 prices, [compute_ma s 50] and [compute_ma s 200] are the same
    series. *)
Theorem moving_averages_coincide_on_short_series :
  forall (series : list fl) (w1 w2 : nat),
    (List.length series <= w1)%nat ->
    (List.length series <= w2)%nat ->
    compute_ma series w1 = compute_ma series w2.
Proof. intros. now apply compute_ma_short. Qed.

Lemma moving_averages_coincide_on_short_series_witness :
  (List.length rising15 <= 50)%nat /\
  (List.length rising15 <= 200)%nat /\
  compute_ma rising15 50 = compute_ma rising15 200.
Proof.
  split; [vm_compute; lia|]. split; [vm_compute; lia|].
  apply (moving_averages_coincide_on_short_series rising15 50 200).
  - vm_compute. lia.
  - vm_compute. lia.
Defined.

(** ** The MACD stays within the width of the price range *)

Section EmaRange.

Variables lo hi : Q.

Lemma prep_values_between s :
  Forall (between lo hi) s -> prep_values s = s.
Proof.
  unfold prep_values. induction 1 as [|x s Hx Hs IH]; [reflexivity|].
  destruct x; simpl in Hx; try contradiction. cbn [map isinf]. now rewrite IH.
Qed.

Lemma convex_between (a w x : Q) :
  0 < a -> a <= 1 -> lo <= w <= hi -> lo <= x <= hi ->
  lo <= (1 - a) * w + a * x <= hi.
Proof.
  intros Ha Ha1 [Hw1 Hw2] [Hx1 Hx2].
  assert (H1 : 0 <= (1 - a) * (w - lo)) by (apply Qmult_le_0_compat; lra).
  assert (H2 : 0 <= a * (x - lo)) by (apply Qmult_le_0_compat; lra).
  assert (H3 : 0 <= (1 - a) * (hi - w)) by (apply Qmult_le_0_compat; lra).
  assert (H4 : 0 <= a * (hi - x)) by (apply Qmult_le_0_compat; lra).
  split; lra.
Qed.

Lemma ewm_step_between (a w x : Q) :
  0 < a -> a <= 1 -> lo <= w <= hi -> lo <= x <= hi ->
  exists w',
    ewm_step (Fin a) (Fin w, Fin 1) (Fin x) = (Fin w', Fin 1) /\
    lo <= w' <= hi.
Proof.
  intros Ha Ha1 Hw Hx. unfold ewm_step. cbn [isnan negb].
  destruct (neqb (Fin w) (Fin x)); [|now exists w].
  unfold of_Z, inject_Z. cbn [mul add sub neg div].
  set (o := Qred (1 * Qred (1 + Qred (- a)))).
  assert (Ho : o == 1 - a) by (unfold o; rewrite !Qred_correct; ring).
  assert (Hd : o + a == 1) by (rewrite Ho; ring).
  assert (Hnz : ~ Qred (o + a) == 0) by (rewrite Qred_correct; lra).
  rewrite (Qeq_bool_false _ _ Hnz).
  eexists. split; [reflexivity|].
  rewrite !Qred_correct, Hd, Ho.
  assert (E : ((1 - a) * w + a * x) / 1 == (1 - a) * w + a * x)
    by (field).
  rewrite E. now apply convex_between.
Qed.

Lemma ewm_from_between (a w : Q) s :
  0 < a -> a <= 1 -> lo <= w <= hi ->
  Forall (between lo hi) s ->
  Forall (between lo hi) (ewm_from (Fin a) (Fin w, Fin 1) s).
Proof.
  intros Ha Ha1 Hw H. revert w Hw.
  induction H as [|x s Hx Hs IH]; intros w Hw; [constructor|].
  destruct x as [| |v|]; simpl in Hx; try contradiction.
  cbn [ewm_from].
  destruct (ewm_step_between a w v Ha Ha1 Hw Hx) as (w' & E & Hw').
  rewrite E. cbn [fst]. constructor; [exact Hw'|]. now apply IH.
Qed.

Lemma ewm_mean_between span s :
  (1 <= span)%Z ->
  Forall (between lo hi) s -> Forall (between lo hi) (ewm_mean span s).
Proof.
  intros Hspan H. unfold ewm_mean. rewrite (prep_values_between s H).
  destruct H as [|x s Hx Hs]; [constructor|].
  destruct x as [| |v|]; simpl in Hx; try contradiction.
  constructor; [exact Hx|].
  assert (Hpos : 0 < inject_Z (span + 1)).
  { change 0 with (inject_Z 0). rewrite <- Zlt_Qlt. lia. }
  assert (Hge : 2 <= inject_Z (span + 1)).
  { change 2 with (inject_Z 2). rewrite <- Zle_Qle. lia. }
  unfold ewm_alpha, of_Z, div. rewrite Qeq_bool_false by lra.
  change (Fin (inject_Z 1)) with (Fin 1).
  apply ewm_from_between; try assumption.
  - rewrite Qred_correct. apply Qlt_shift_div_l; [assumption|].
    change (inject_Z 2) with 2. lra.
  - rewrite Qred_correct. apply Qle_shift_div_r; [assumption|].
    change (inject_Z 2) with 2. lra.
Qed.

End EmaRange.

Section MacdRange.

Lemma zip_sub_between (lo hi : Q) a b :
  Forall (between lo hi) a -> Forall (between lo hi) b ->
  Forall (between (lo - hi) (hi - lo)) (zip_with sub a b).
Proof.
  apply Forall_zip_with. intros x y Hx Hy.
  destruct x, y; simpl in *; try contradiction.
  rewrite !Qred_correct. lra.
Qed.

Lemma zip_sub_between_twice (m : Q) a b :
  Forall (between (- m) m) a -> Forall (between (- m) m) b ->
  Forall (between (- (2 * m)) (2 * m)) (zip_with sub a b).
Proof.
  apply Forall_zip_with. intros x y Hx Hy.
  destruct x, y; simpl in *; try contradiction.
  rewrite !Qred_correct. lra.
Qed.

Lemma between_weaken (l1 h1 l2 h2 : Q) s :
  l2 <= l1 -> h1 <= h2 ->
  Forall (between l1 h1) s -> Forall (between l2 h2) s.
Proof.
  intros Hl Hh H. eapply Forall_impl; [|exact H].
  intros x Hx. destruct x; simpl in *; try contradiction. lra.
Qed.

End MacdRange.

(** X8.  On prices that all lie in [lo, hi], the MACD line and its signal
    line stay within the width of the price range, between [-(hi - lo)]
    and [hi - lo], and the histogram within twice that. *)
Theorem macd_within_price_range :
  forall (lo hi : Q) (series : list fl),
    Forall (between lo hi) series ->
    let frame := compute_macd series in
    Forall (between (- (hi - lo)) (hi - lo)) (Macd.macd frame) /\
    Forall (between (- (hi - lo)) (hi - lo)) (Macd.signal frame) /\
    Forall (between (- (2 * (hi - lo))) (2 * (hi - lo))) (Macd.hist frame).
Proof.
  intros lo hi s H frame. subst frame. unfold compute_macd.
  cbn [Macd.macd Macd.signal Macd.hist].
  assert (Hm : Forall (between (- (hi - lo)) (hi - lo))
                 (zip_with sub (ewm_mean 12 s) (ewm_mean 26 s))).
  { apply between_weaken with (l1 := lo - hi) (h1 := hi - lo); try lra.
    apply zip_sub_between; apply ewm_mean_between; (lia || assumption). }
  assert (Hs : Forall (between (- (hi - lo)) (hi - lo))
                 (ewm_mean 9 (zip_with sub (ewm_mean 12 s) (ewm_mean 26 s)))).
  { apply ewm_mean_between; [lia|assumption]. }
  split; [assumption|]. split; [assumption|].
  now apply zip_sub_between_twice.
Qed.

Lemma macd_within_price_range_witness :
  Forall (between 100 114) rising15 /\
  Forall (between (- (114 - 100)) (114 - 100))
    (Macd.macd (compute_macd rising15)).
Proof.
  assert (H : Forall (between 100 114) rising15).
  { unfold rising15. apply Forall_map, Forall_forall. intros i Hi.
    apply in_seq in Hi. unfold of_Z, between.
    split; [change 100 with (inject_Z 100)|change 114 with (inject_Z 114)];
      rewrite <- Zle_Qle; lia. }
  split; [exact H|].
  apply (macd_within_price_range 100 114 rising15 H).
Defined.

(** ** The engine on short frames *)

Section ShortFrames.

Variable lstm_fit_predict :
  list fl -> Z -> Z -> Z -> result (fl * Z * list fl).
Variable format_f : nat -> fl -> string.

Lemma ltb_irrefl (x : fl) : ltb x x = false.
Proof.
  destruct (ltb x x) eqn:E; [|reflexivity].
  pose proof (ltb_asym _ _ E). congruence.
Qed.

Lemma close_length (col : list cell) :
  List.length (ffill (to_numeric col)) = List.length col.
Proof. unfold ffill, to_numeric. now rewrite ffill_from_length, length_map. Qed.

Lemma isna_all_nonempty s : isna_all s = false -> s <> [].
Proof. intros H ->. discriminate H. Qed.

(** Below [lookback + 2] prices the forecast is the model's own
    fallback, whatever the training parameter (lines 43-46 of
    model.py). *)
Lemma predict_below_lookback (s : list fl) (lookback epochs hidden_size : Z) :
  s <> [] ->
  (Z.of_nat (List.length s) < lookback + 2)%Z ->
  predict_next_price lstm_fit_predict (Some s) lookback epochs hidden_size
  = Ok (last_observed s, Fin 0,
        Meta.mk (Some 0%Z) (Some true) (Some [])
                (Some "insufficient_data"%string)).
Proof.
  intros Hne Hlen. unfold predict_next_price.
  destruct s as [|x s]; [congruence|].
  assert (E : (Z.of_nat (List.length (ffill (x :: s))) <? lookback + 2)%Z
              = true).
  { apply Z.ltb_lt. unfold ffill. now rewrite ffill_from_length. }
  rewrite E, iloc_last_ffill by discriminate. reflexivity.
Qed.

Lemma final_signal_of_zero base : final_signal_of base (Fin 0) = base.
Proof. reflexivity. Qed.

(** The forecast of a main-path result on fewer than 32 rows. *)
Lemma main_result_short_forecast col coin_id r :
  (List.length col < 32)%nat ->
  main_result lstm_fit_predict format_f col coin_id r ->
  predicted_change_pct r = Fin 0 /\
  fallback r = true /\
  predicted_price r = last_observed (ffill (to_numeric col)) /\
  Meta.reason (model_meta r) = Some "insufficient_data"%string.
Proof.
  intros Hlen Hm. unfold main_result in Hm.
  destruct Hm as (Hna & _ & _ & _ & _ & _ & _ & Hf & _ & _ & _ & Hfb).
  assert (Hp := predict_below_lookback (ffill (to_numeric col)) 30 3 48
                  (isna_all_nonempty _ Hna)).
  rewrite close_length in Hp. specialize (Hp ltac:(lia)).
  destruct Hf as [Hf | (e & Hf & _)]; rewrite Hp in Hf; [|discriminate].
  injection Hf as Hpp Hpct Hmeta.
  rewrite Hfb, <- Hmeta, <- Hpct, <- Hpp. now repeat split.
Qed.

Lemma In_iloc_last_repeat {A} (x y : A) n :
  iloc_last (repeat x n) = Ok y -> y = x.
Proof. intros H. apply iloc_last_In in H. now apply repeat_spec in H. Qed.

(** The RSI of a main-path result on at most 14 rows is the neutral 50. *)
Lemma main_result_tiny_rsi col coin_id r :
  (List.length col <= 14)%nat ->
  main_result lstm_fit_predict format_f col coin_id r ->
  Ind.rsi (indicators r) = Fin 50.
Proof.
  intros Hlen Hm. unfold main_result in Hm.
  destruct Hm as (_ & Hrsi & _).
  rewrite <- (firstn_all2 (n := 14) (compute_rsi (ffill (to_numeric col)) 14))
    in Hrsi by (rewrite compute_rsi_length, close_length; lia).
  rewrite compute_rsi_warm_up in Hrsi.
  now apply In_iloc_last_repeat in Hrsi.
Qed.

(** The two moving averages of a main-path result on at most 50 rows. *)
Lemma main_result_short_ma col coin_id r :
  (List.length col <= 50)%nat ->
  main_result lstm_fit_predict format_f col coin_id r ->
  Ind.ma50 (indicators r) = Ind.ma200 (indicators r).
Proof.
  intros Hlen Hm. unfold main_result in Hm.
  destruct Hm as (_ & _ & _ & _ & H50 & H200 & _).
  rewrite (compute_ma_short _ 50 200) in H50
    by (rewrite close_length; lia).
  congruence.
Qed.

Lemma technical_score_shape rsi macd sig ma50 ma200 :
  technical_score rsi macd sig ma50 ma200 = score_spec rsi macd sig ma50 ma200
  /\ (-3 <= technical_score rsi macd sig ma50 ma200 <= 3)%Z.
Proof.
  pose proof (rsi_tests_exclusive rsi) as Hr.
  pose proof (lt_gt_exclusive macd sig) as Hm.
  pose proof (lt_gt_exclusive ma50 ma200) as Ht.
  rewrite andb_comm in Hm. rewrite andb_comm in Ht.
  assert (Hs : technical_score rsi macd sig ma50 ma200
               = score_spec rsi macd sig ma50 ma200).
  { unfold technical_score, score_spec, vote.
    destruct (rsi <? of_Z 30)%fl, (rsi >? of_Z 70)%fl; try discriminate Hr;
    destruct (macd >? sig)%fl, (macd <? sig)%fl; try discriminate Hm;
    destruct (ma50 >? ma200)%fl, (ma50 <? ma200)%fl; try discriminate Ht;
    reflexivity. }
  split; [exact Hs|]. rewrite Hs. unfold score_spec.
  pose proof (vote_range (rsi <? of_Z 30)%fl (rsi >? of_Z 70)%fl).
  pose proof (vote_range (macd >? sig)%fl (macd <? sig)%fl).
  pose proof (vote_range (ma50 >? ma200)%fl (ma50 <? ma200)%fl).
  lia.
Qed.

Lemma technical_score_no_trend rsi macd sig m :
  technical_score rsi macd sig m m
  = (vote (rsi <? of_Z 30)%fl (rsi >? of_Z 70)%fl
     + vote (macd >? sig)%fl (macd <? sig)%fl)%Z.
Proof.
  destruct (technical_score_shape rsi macd sig m m) as [-> _].
  unfold score_spec, gtb. rewrite ltb_irrefl. cbn [vote]. lia.
Qed.

Lemma base_signal_of_single_vote (a b : bool) :
  base_signal_of (vote false false + vote a b) = HOLD.
Proof. destruct a, b; reflexivity. Qed.

End ShortFrames.

Section MainPath.

Variable lstm_fit_predict :
  list fl -> Z -> Z -> Z -> result (fl * Z * list fl).
Variable format_f : nat -> fl -> string.

(** On a frame with rows, a close column and a number in it, a result of
    the engine is a main-path result. *)
Lemma hybrid_signal_main_inv d col coin_id r :
  df_empty d = false -> df_get "close" d = Some col ->
  isna_all (to_numeric col) = false ->
  hybrid_signal lstm_fit_predict format_f (Some d) coin_id = Ok r ->
  main_result lstm_fit_predict format_f col coin_id r.
Proof.
  intros He Hc Hna H. unfold hybrid_signal in H. rewrite He, Hc in H.
  cbv zeta in H. rewrite isna_all_ffill, Hna in H.
  destruct (iloc_last col) as [latest|] eqn:H0; [|discriminate].
  destruct (iloc_last (compute_rsi _ 14)) as [v1|] eqn:H1; [|discriminate].
  destruct (iloc_last (Macd.macd _)) as [v2|] eqn:H2; [|discriminate].
  destruct (iloc_last (Macd.signal _)) as [v3|] eqn:H3; [|discriminate].
  destruct (iloc_last (compute_ma _ 50)) as [v4|] eqn:H4; [|discriminate].
  destruct (iloc_last (compute_ma _ 200)) as [v5|] eqn:H5; [|discriminate].
  cbn [bind] in H.
  destruct (predict_next_price _ _ _ _ _) as [[[pp pct] meta]|e] eqn:Hp;
    cbn [try_except bind] in H;
    (destruct (py_float latest) as [lc|] eqn:Hf; [|discriminate]);
    cbn [bind] in H; injection H as <-; unfold main_result; cbn;
    rewrite isna_all_ffill;
    repeat split; try assumption; try reflexivity.
  - now exists latest.
  - now left.
  - now exists latest.
  - right. now exists e.
Qed.

(** With the last cell of the close column not a number, the engine
    raises the exception of its conversion. *)
Lemma hybrid_signal_raises d col latest coin_id e :
  df_empty d = false -> df_get "close" d = Some col ->
  isna_all (to_numeric col) = false ->
  iloc_last col = Ok latest -> py_float latest = Raise e ->
  hybrid_signal lstm_fit_predict format_f (Some d) coin_id = Raise e.
Proof.
  intros He Hc Hna H0 Hf.
  destruct (hybrid_signal lstm_fit_predict format_f (Some d) coin_id)
    as [r|e'] eqn:H.
  - apply (hybrid_signal_main_inv _ _ _ _ He Hc Hna) in H.
    unfold main_result in H.
    destruct H as (_ & _ & _ & _ & _ & _ & (l & Hl & Hfl) & _).
    congruence.
  - destruct (hybrid_signal_raises_inv _ _ _ _ _ H)
      as (d' & col' & l & [= <-] & Hc' & Hl & Hfl).
    congruence.
Qed.

(** On enough prices the forecast is the outcome of the training
    (lines 48-82 of model.py). *)
Lemma predict_enough (s : list fl) (lookback epochs hidden_size : Z) :
  s <> [] ->
  (lookback + 2 <= Z.of_nat (List.length s))%Z ->
  predict_next_price lstm_fit_predict (Some s) lookback epochs hidden_size
  = match lstm_fit_predict (ffill s) lookback epochs hidden_size with
    | Raise e => Raise e
    | Ok (pred_price, trained, losses) =>
        Ok (pred_price,
            if eqb (last_observed s) (Fin 0) then Fin 0
            else ((pred_price - last_observed s) / last_observed s)%fl,
            Meta.mk (Some trained) (Some false) (Some losses) None)
    end.
Proof.
  intros Hne Hlen. unfold predict_next_price.
  destruct s as [|x s]; [congruence|].
  assert (E : (Z.of_nat (List.length (ffill (x :: s))) <? lookback + 2)%Z
              = false).
  { apply Z.ltb_ge. unfold ffill. now rewrite ffill_from_length. }
  rewrite E.
  destruct (lstm_fit_predict _ _ _ _) as [[[p te] lh]|e]; [|reflexivity].
  cbn [bind]. rewrite iloc_last_ffill by discriminate. cbn [bind].
  unfold truthy. now destruct (eqb (last_observed (x :: s)) (Fin 0)).
Qed.

Lemma last_observed_ffill s : last_observed (ffill s) = last_observed s.
Proof.
  destruct s as [|x s]; [reflexivity|].
  assert (H : iloc_last (ffill (ffill (x :: s)))
              = Ok (last_observed (ffill (x :: s)))).
  { apply iloc_last_ffill. unfold ffill. simpl. discriminate. }
  assert (G : forall p l, ffill_from p (ffill_from p l) = ffill_from p l).
  { intros p l. revert p. induction l as [|y l IH]; intros p;
      [reflexivity|].
    cbn [ffill_from]. destruct (isnan y) eqn:Ey.
    - destruct (isnan p) eqn:Ep; now rewrite IH.
    - now rewrite Ey, IH. }
  unfold ffill in H at 1. unfold ffill in H at 1.
  rewrite G in H.
  fold (ffill (x :: s)) in H.
  rewrite iloc_last_ffill in H by discriminate. now injection H.
Qed.

End MainPath.

(** X9.  A frame whose close column has at most 14 rows never yields BUY
    or SELL: every result of the engine on it is HOLD, with a forecast
    change of 0.0 and the fallback flag set.  The RSI is still in its
    warm-up, the two moving averages coincide, the model does not train,
    so at most the MACD votes. *)
Theorem tiny_frame_is_hold :
  forall lstm_fit_predict format_f (df : option DataFrame)
         (coin_id : string) (r : SignalResult),
    (forall d col, df = Some d -> df_get "close" d = Some col ->
                   (List.length col <= 14)%nat) ->
    hybrid_signal lstm_fit_predict format_f df coin_id = Ok r ->
    signal r = HOLD /\ predicted_change_pct r = Fin 0 /\ fallback r = true.
Proof.
  intros lstm fmt df coin_id r Hrows H.
  destruct (hybrid_signal_inv _ _ _ _ _ H) as [-> | [-> | Hmain]];
    [now repeat split|now repeat split|].
  destruct Hmain as (d & col & -> & _ & Hc & Hm).
  specialize (Hrows d col eq_refl Hc).
  destruct (main_result_short_forecast lstm fmt col coin_id r ltac:(lia) Hm)
    as (Hpct & Hfb & _).
  pose proof (main_result_tiny_rsi lstm fmt col coin_id r Hrows Hm) as Hrsi.
  pose proof (main_result_short_ma lstm fmt col coin_id r ltac:(lia) Hm) as Hma.
  unfold main_result in Hm.
  destruct Hm as (_ & _ & _ & _ & _ & _ & _ & _ & Hsig & _).
  repeat split; try assumption.
  rewrite Hsig, Hpct, final_signal_of_zero, Hrsi, Hma,
    technical_score_no_trend.
  change ((Fin 50 <? of_Z 30)%fl) with false.
  change ((Fin 50 >? of_Z 70)%fl) with false.
  apply base_signal_of_single_vote.
Qed.

Lemma tiny_frame_is_hold_witness :
  exists r,
    hybrid_signal demo_lstm demo_format (Some (demo_frame 14)) "bitcoin" = Ok r /\
    signal r = HOLD /\ predicted_change_pct r = Fin 0 /\ fallback r = true.
Proof.
  eexists. split; [vm_compute; reflexivity|].
  apply (tiny_frame_is_hold demo_lstm demo_format (Some (demo_frame 14))
           "bitcoin").
  - intros d col [= <-] [= <-]. vm_compute. lia.
  - vm_compute. reflexivity.
Defined.

(** X10.  On a frame whose close column has fewer than 32 rows the
    forecasting model is not consulted: the engine gives the same outcome,
    result or exception, for any two forecasting models. *)
Theorem model_not_consulted_below_32_rows :
  forall lstm1 lstm2 format_f (df : option DataFrame) (coin_id : string),
    (forall d col, df = Some d -> df_get "close" d = Some col ->
                   (List.length col < 32)%nat) ->
    hybrid_signal lstm1 format_f df coin_id
    = hybrid_signal lstm2 format_f df coin_id.
Proof.
  intros lstm1 lstm2 fmt df coin_id Hrows. unfold hybrid_signal.
  destruct df as [d|]; [|reflexivity].
  destruct (df_empty d); [reflexivity|].
  destruct (df_get "close" d) as [col|] eqn:Hc; [|reflexivity].
  specialize (Hrows d col eq_refl Hc). cbv zeta.
  destruct (isna_all (ffill (to_numeric col))) eqn:Hna; [reflexivity|].
  rewrite !predict_below_lookback;
    try (rewrite close_length; lia);
    try (now apply isna_all_nonempty).
  reflexivity.
Qed.

Lemma model_not_consulted_below_32_rows_witness :
  hybrid_signal demo_lstm demo_format (Some (demo_frame 31)) "bitcoin"
  = hybrid_signal demo_lstm' demo_format (Some (demo_frame 31)) "bitcoin".
Proof.
  apply (model_not_consulted_below_32_rows demo_lstm demo_lstm' demo_format
           (Some (demo_frame 31)) "bitcoin").
  intros d col [= <-] [= <-]. vm_compute. lia.
Defined.

(** X11.  On a frame whose close column has fewer than 32 rows, every
    result of the engine has the fallback flag set and a forecast change
    of 0.0, and its signal is the base signal of the technical score: the
    forecast override cannot act. *)
Theorem below_32_rows_signal_is_base :
  forall lstm_fit_predict format_f (df : option DataFrame)
         (coin_id : string) (r : SignalResult),
    (forall d col, df = Some d -> df_get "close" d = Some col ->
                   (List.length col < 32)%nat) ->
    hybrid_signal lstm_fit_predict format_f df coin_id = Ok r ->
    fallback r = true /\
    predicted_change_pct r = Fin 0 /\
    signal r =
      base_signal_of
        (technical_score (Ind.rsi (indicators r)) (Ind.macd (indicators r))
           (Ind.macd_signal (indicators r)) (Ind.ma50 (indicators r))
           (Ind.ma200 (indicators r))).
Proof.
  intros lstm fmt df coin_id r Hrows H.
  destruct (hybrid_signal_inv _ _ _ _ _ H) as [-> | [-> | Hmain]];
    [now repeat split|now repeat split|].
  destruct Hmain as (d & col & -> & _ & Hc & Hm).
  specialize (Hrows d col eq_refl Hc).
  destruct (main_result_short_forecast lstm fmt col coin_id r Hrows Hm)
    as (Hpct & Hfb & _).
  unfold main_result in Hm.
  destruct Hm as (_ & _ & _ & _ & _ & _ & _ & _ & Hsig & _).
  repeat split; try assumption.
  now rewrite Hsig, Hpct, final_signal_of_zero.
Qed.

Lemma below_32_rows_signal_is_base_witness :
  exists r,
    hybrid_signal demo_lstm demo_format (Some (demo_frame 31)) "bitcoin" = Ok r /\
    fallback r = true /\ predicted_change_pct r = Fin 0.
Proof.
  eexists. split; [vm_compute; reflexivity|].
  assert (H := below_32_rows_signal_is_base demo_lstm demo_format
                 (Some (demo_frame 31)) "bitcoin").
  split; eapply H; try (vm_compute; reflexivity);
    intros d col [= <-] [= <-]; vm_compute; lia.
Defined.

(** X12.  On a frame whose close column has at most 50 rows, the ma50
    and ma200 of every result are equal, so the trend test does not vote:
    the technical score is the RSI vote plus the MACD vote. *)
Theorem at_most_50_rows_no_trend_vote :
  forall lstm_fit_predict format_f (df : option DataFrame)
         (coin_id : string) (r : SignalResult),
    (forall d col, df = Some d -> df_get "close" d = Some col ->
                   (List.length col <= 50)%nat) ->
    hybrid_signal lstm_fit_predict format_f df coin_id = Ok r ->
    let ind := indicators r in
    Ind.ma50 ind = Ind.ma200 ind /\
    technical_score (Ind.rsi ind) (Ind.macd ind) (Ind.macd_signal ind)
                    (Ind.ma50 ind) (Ind.ma200 ind)
    = (vote (Ind.rsi ind <? of_Z 30)%fl (Ind.rsi ind >? of_Z 70)%fl
       + vote (Ind.macd ind >? Ind.macd_signal ind)%fl
              (Ind.macd ind <? Ind.macd_signal ind)%fl)%Z.
Proof.
  intros lstm fmt df coin_id r Hrows H ind. subst ind.
  assert (Hma : Ind.ma50 (indicators r) = Ind.ma200 (indicators r)).
  { destruct (hybrid_signal_inv _ _ _ _ _ H) as [-> | [-> | Hmain]];
      [reflexivity|reflexivity|].
    destruct Hmain as (d & col & -> & _ & Hc & Hm).
    apply (main_result_short_ma lstm fmt col coin_id r); [|assumption].
    now apply (Hrows d col). }
  split; [assumption|]. rewrite Hma. apply technical_score_no_trend.
Qed.

Lemma at_most_50_rows_no_trend_vote_witness :
  exists r,
    hybrid_signal demo_lstm demo_format (Some (demo_frame 40)) "bitcoin" = Ok r /\
    Ind.ma50 (indicators r) = Ind.ma200 (indicators r).
Proof.
  eexists. split; [vm_compute; reflexivity|].
  apply (at_most_50_rows_no_trend_vote demo_lstm demo_format
           (Some (demo_frame 40)) "bitcoin").
  - intros d col [= <-] [= <-]. vm_compute. lia.
  - vm_compute. reflexivity.
Defined.

(** ** The decision table *)

Section DecisionTable.

Lemma final_signal_of_table (base : string) (pct : fl) :
  is_signal base ->
  let up := (pct >=? Fin (1 # 100))%fl in
  let down := (pct <=? Fin (- 1 # 100))%fl in
  let final := final_signal_of base pct in
  (final = BUY <-> base = BUY \/ (base = HOLD /\ up = true)) /\
  (final = SELL <-> base = SELL \/ (base = HOLD /\ down = true)) /\
  (final = HOLD <-> base = HOLD /\ up = false /\ down = false).
Proof.
  intros Hb up down final.
  assert (Hx : down = true -> up = false) by apply leb_geb_thresholds.
  subst final. unfold final_signal_of. fold up. fold down.
  destruct Hb as [-> | [-> | ->]]; cbn [String.eqb negb andb];
    change (String.eqb BUY SELL) with false;
    change (String.eqb HOLD SELL) with false;
    change (String.eqb HOLD BUY) with false;
    change (String.eqb SELL SELL) with true;
    change (String.eqb BUY BUY) with true;
    change (String.eqb SELL BUY) with false;
    cbn [negb andb];
    destruct up, down; cbn [negb andb];
    try (specialize (Hx eq_refl); discriminate Hx);
    repeat split; intros; try reflexivity; try discriminate;
    try (now left); try (now right);
    repeat match goal with
      | H : _ \/ _ |- _ => destruct H
      | H : _ /\ _ |- _ => destruct H
      end; try discriminate; try reflexivity; auto.
Qed.

End DecisionTable.

(** X13.  The decision table of the engine.  For every result, with
    [base] the base signal of its indicators: the signal is BUY exactly
    when [base] is BUY, or [base] is HOLD and the forecast change is at
    least +1%; SELL exactly when [base] is SELL, or [base] is HOLD and
    the change is at most -1%; HOLD exactly when [base] is HOLD and the
    change meets neither threshold (a NaN change meets neither). *)
Theorem engine_decision_table :
  forall lstm_fit_predict format_f (df : option DataFrame)
         (coin_id : string) (r : SignalResult),
    hybrid_signal lstm_fit_predict format_f df coin_id = Ok r ->
    let ind := indicators r in
    let base :=
      base_signal_of
        (technical_score (Ind.rsi ind) (Ind.macd ind) (Ind.macd_signal ind)
                         (Ind.ma50 ind) (Ind.ma200 ind)) in
    let up := (predicted_change_pct r >=? Fin (1 # 100))%fl in
    let down := (predicted_change_pct r <=? Fin (- 1 # 100))%fl in
    (signal r = BUY <-> base = BUY \/ (base = HOLD /\ up = true)) /\
    (signal r = SELL <-> base = SELL \/ (base = HOLD /\ down = true)) /\
    (signal r = HOLD <-> base = HOLD /\ up = false /\ down = false).
Proof.
  intros lstm fmt df coin_id r H ind base up down.
  assert (Hsig : signal r = final_signal_of base (predicted_change_pct r)).
  { destruct (hybrid_signal_inv _ _ _ _ _ H) as [-> | [-> | Hmain]];
      [reflexivity|reflexivity|].
    destruct Hmain as (d & col & _ & _ & _ & Hm).
    unfold main_result in Hm. apply Hm. }
  rewrite Hsig.
  apply final_signal_of_table, base_signal_of_is_signal.
Qed.

Lemma engine_decision_table_witness :
  exists r,
    hybrid_signal demo_lstm' demo_format (Some (demo_frame 3)) "bitcoin" = Ok r /\
    (signal r = HOLD <->
     base_signal_of
       (technical_score (Ind.rsi (indicators r)) (Ind.macd (indicators r))
          (Ind.macd_signal (indicators r)) (Ind.ma50 (indicators r))
          (Ind.ma200 (indicators r))) = HOLD /\
     (predicted_change_pct r >=? Fin (1 # 100))%fl = false /\
     (predicted_change_pct r <=? Fin (- 1 # 100))%fl = false).
Proof.
  eexists. split; [vm_compute; reflexivity|].
  apply (engine_decision_table demo_lstm' demo_format (Some (demo_frame 3))
           "bitcoin").
  vm_compute. reflexivity.
Defined.

(** X14.  On a series that is not empty and has at least [lookback + 2]
    values, [predict_next_price] raises what the training raises;
    otherwise it returns the trained prediction with [fallback = false]
    and no reason, and the change is the prediction relative to the last
    observed price, or 0.0 when that price is 0: it never divides by a
    zero price. *)
Theorem predict_on_enough_data :
  forall lstm_fit_predict (series : list fl) (lookback epochs hidden_size : Z),
    series <> [] ->
    (lookback + 2 <= Z.of_nat (List.length series))%Z ->
    predict_next_price lstm_fit_predict (Some series) lookback epochs hidden_size
    = match lstm_fit_predict (ffill series) lookback epochs hidden_size with
      | Raise e => Raise e
      | Ok (pred_price, trained, losses) =>
          Ok (pred_price,
              if eqb (last_observed series) (Fin 0) then Fin 0
              else ((pred_price - last_observed series)
                    / last_observed series)%fl,
              Meta.mk (Some trained) (Some false) (Some losses) None)
      end.
Proof. intros. now apply predict_enough. Qed.

Lemma predict_on_enough_data_witness :
  predict_next_price demo_lstm (Some (to_numeric (demo_prices 100 40))) 30 3 48
  = Ok (Fin 105, Fin (-34 # 139),
        Meta.mk (Some 3%Z) (Some false) (Some [Fin (1 # 10)]) None).
Proof.
  rewrite (predict_on_enough_data demo_lstm
             (to_numeric (demo_prices 100 40)) 30 3 48).
  - vm_compute. reflexivity.
  - discriminate.
  - vm_compute. discriminate.
Defined.

(** ** The forecast inside the engine *)

Section EngineForecast.

Variable lstm_fit_predict :
  list fl -> Z -> Z -> Z -> result (fl * Z * list fl).
Variable format_f : nat -> fl -> string.

Lemma ffill_from_idempotent p l :
  ffill_from p (ffill_from p l) = ffill_from p l.
Proof.
  revert p. induction l as [|y l IH]; intros p; [reflexivity|].
  cbn [ffill_from]. destruct (isnan y) eqn:Ey.
  - destruct (isnan p) eqn:Ep; now rewrite IH.
  - now rewrite Ey, IH.
Qed.

Lemma ffill_idempotent s : ffill (ffill s) = ffill s.
Proof. apply ffill_from_idempotent. Qed.

(** The forecast the engine gets on at least 32 rows. *)
Lemma engine_predict_enough (col : list cell) :
  isna_all (to_numeric col) = false ->
  (32 <= List.length col)%nat ->
  predict_next_price lstm_fit_predict (Some (ffill (to_numeric col))) 30 3 48
  = match lstm_fit_predict (ffill (to_numeric col)) 30 3 48 with
    | Raise e => Raise e
    | Ok (pred_price, trained, losses) =>
        Ok (pred_price,
            if eqb (last_observed (to_numeric col)) (Fin 0) then Fin 0
            else ((pred_price - last_observed (to_numeric col))
                  / last_observed (to_numeric col))%fl,
            Meta.mk (Some trained) (Some false) (Some losses) None)
    end.
Proof.
  intros Hna Hlen. rewrite predict_enough.
  - now rewrite ffill_idempotent, last_observed_ffill.
  - apply isna_all_nonempty. now rewrite isna_all_ffill.
  - rewrite close_length. lia.
Qed.

End EngineForecast.

(** X15.  On a frame with at least 32 rows whose close column holds a
    number, when the training returns a prediction the result carries it:
    the predicted price is the model's, the fallback flag is false, the
    meta has the trained epochs and losses and no reason, and the change
    is relative to the last observed close (0.0 when that close is 0). *)
Theorem engine_carries_the_forecast :
  forall lstm_fit_predict format_f (d : DataFrame) (col : list cell)
         (coin_id : string) (r : SignalResult)
         (pred_price : fl) (trained : Z) (losses : list fl),
    df_empty d = false ->
    df_get "close" d = Some col ->
    isna_all (to_numeric col) = false ->
    (32 <= List.length col)%nat ->
    lstm_fit_predict (ffill (to_numeric col)) 30%Z 3%Z 48%Z
      = Ok (pred_price, trained, losses) ->
    hybrid_signal lstm_fit_predict format_f (Some d) coin_id = Ok r ->
    predicted_price r = pred_price /\
    predicted_change_pct r =
      (if eqb (last_observed (to_numeric col)) (Fin 0) then Fin 0
       else ((pred_price - last_observed (to_numeric col))
             / last_observed (to_numeric col))%fl) /\
    fallback r = false /\
    model_meta r = Meta.mk (Some trained) (Some false) (Some losses) None.
Proof.
  intros lstm fmt d col coin_id r p te lh He Hc Hna Hlen Hfit H.
  apply (hybrid_signal_main_inv _ _ _ _ _ _ He Hc Hna) in H.
  unfold main_result in H.
  destruct H as (_ & _ & _ & _ & _ & _ & _ & Hf & _ & _ & _ & Hfb).
  pose proof (engine_predict_enough lstm col Hna Hlen) as Hp.
  rewrite Hfit in Hp.
  destruct Hf as [Hf | (e & Hf & _)]; rewrite Hp in Hf; [|discriminate].
  injection Hf as Hpp Hpct Hmeta.
  rewrite Hfb, <- Hmeta, <- Hpct, <- Hpp. now repeat split.
Qed.

Lemma engine_carries_the_forecast_witness :
  exists r,
    hybrid_signal demo_lstm demo_format (Some (demo_frame 40)) "bitcoin" = Ok r /\
    predicted_price r = Fin 105 /\
    predicted_change_pct r = Fin (-34 # 139) /\
    fallback r = false.
Proof.
  assert (Hr : exists r,
             hybrid_signal demo_lstm demo_format (Some (demo_frame 40))
               "bitcoin" = Ok r)
    by (eexists; vm_compute; reflexivity).
  destruct Hr as [r Hr]. exists r. split; [exact Hr|].
  assert (H1 : df_empty (demo_frame 40) = false) by reflexivity.
  assert (H2 : df_get "close" (demo_frame 40) = Some (demo_prices 100 40))
    by reflexivity.
  assert (H3 : isna_all (to_numeric (demo_prices 100 40)) = false)
    by (vm_compute; reflexivity).
  assert (H4 : (32 <= List.length (demo_prices 100 40))%nat)
    by (vm_compute; lia).
  assert (H5 : demo_lstm (ffill (to_numeric (demo_prices 100 40))) 30%Z 3%Z 48%Z
               = Ok (Fin 105, 3%Z, [Fin (1 # 10)])) by reflexivity.
  destruct (engine_carries_the_forecast demo_lstm demo_format
              (demo_frame 40) (demo_prices 100 40) "bitcoin"
              r (Fin 105) 3%Z [Fin (1 # 10)] H1 H2 H3 H4 H5 Hr)
    as (G1 & G2 & G3 & _).
  rewrite G1, G2, G3.
  split; [reflexivity|]. split; [vm_compute; reflexivity|reflexivity].
Defined.

(** X16.  On a frame with at least 32 rows whose close column ends with
    a number, when the training raises [e] the engine still returns: the
    predicted price is the last close, the change is 0.0, the fallback
    flag is set, the reason is the text of [e], and the signal is the
    base signal. *)
Theorem engine_substitutes_a_failed_forecast :
  forall lstm_fit_predict format_f (d : DataFrame) (col : list cell)
         (coin_id : string) (e : exn) (v : fl),
    df_empty d = false ->
    df_get "close" d = Some col ->
    isna_all (to_numeric col) = false ->
    (32 <= List.length col)%nat ->
    iloc_last col = Ok (CNum v) ->
    lstm_fit_predict (ffill (to_numeric col)) 30%Z 3%Z 48%Z = Raise e ->
    exists r,
      hybrid_signal lstm_fit_predict format_f (Some d) coin_id = Ok r /\
      predicted_price r = v /\
      predicted_change_pct r = Fin 0 /\
      fallback r = true /\
      Meta.reason (model_meta r) = Some (str_of_exn e) /\
      signal r =
        base_signal_of
          (technical_score (Ind.rsi (indicators r)) (Ind.macd (indicators r))
             (Ind.macd_signal (indicators r)) (Ind.ma50 (indicators r))
             (Ind.ma200 (indicators r))).
Proof.
  intros lstm fmt d col coin_id e v He Hc Hna Hlen Hlast Hfit.
  destruct (hybrid_signal_returns lstm fmt (Some d) coin_id) as [r Hr].
  { intros d' col' c [= <-] Hc' Hl. rewrite Hc in Hc'. injection Hc' as <-.
    rewrite Hlast in Hl. injection Hl as <-. now exists v. }
  exists r. split; [assumption|].
  apply (hybrid_signal_main_inv _ _ _ _ _ _ He Hc Hna) in Hr.
  unfold main_result in Hr.
  destruct Hr as (_ & _ & _ & _ & _ & _ & (l & Hl & Hfl) & Hf & Hsig & _ & _
                  & Hfb).
  rewrite Hlast in Hl. injection Hl as <-. cbn [py_float] in Hfl.
  injection Hfl as Hlc.
  pose proof (engine_predict_enough lstm col Hna Hlen) as Hp.
  rewrite Hfit in Hp.
  destruct Hf as [Hf | (e' & Hf & Hpp & Hpct & Hmeta)]; rewrite Hp in Hf;
    [discriminate|].
  injection Hf as <-.
  rewrite Hsig, Hfb, Hmeta, Hpct, Hpp, <- Hlc, final_signal_of_zero.
  now repeat split.
Qed.

Lemma engine_substitutes_a_failed_forecast_witness :
  exists r,
    hybrid_signal demo_lstm_raising demo_format (Some (demo_frame 40)) "bitcoin"
      = Ok r /\
    predicted_price r = Fin 139 /\
    predicted_change_pct r = Fin 0 /\
    fallback r = true /\
    Meta.reason (model_meta r) = Some "training diverged"%string.
Proof.
  assert (H1 : df_empty (demo_frame 40) = false) by reflexivity.
  assert (H2 : df_get "close" (demo_frame 40) = Some (demo_prices 100 40))
    by reflexivity.
  assert (H3 : isna_all (to_numeric (demo_prices 100 40)) = false)
    by (vm_compute; reflexivity).
  assert (H4 : (32 <= List.length (demo_prices 100 40))%nat)
    by (vm_compute; lia).
  assert (H5 : iloc_last (demo_prices 100 40) = Ok (CNum (Fin 139)))
    by (vm_compute; reflexivity).
  assert (H6 : demo_lstm_raising (ffill (to_numeric (demo_prices 100 40)))
                 30%Z 3%Z 48%Z
               = Raise (RuntimeError "training diverged")) by reflexivity.
  destruct (engine_substitutes_a_failed_forecast demo_lstm_raising demo_format
              (demo_frame 40) (demo_prices 100 40) "bitcoin"
              (RuntimeError "training diverged") (Fin 139)
              H1 H2 H3 H4 H5 H6)
    as (r & H & G1 & G2 & G3 & G4 & _).
  exists r. now repeat split.
Defined.

(** X17.  The engine raises exactly when the frame has rows and a close
    column that pandas reads with a number in it, and Python's [float]
    raises on the last cell of that column as the frame holds it; the
    exception is then the one [float] raised.  It raises in no other
    case: a last cell that pandas reads as NaN and [float] as a number,
    such as the text "1_000", does not make the engine raise. *)
Theorem engine_raises_exactly_on_bad_last_close :
  forall lstm_fit_predict format_f (df : option DataFrame)
         (coin_id : string) (e : exn),
    hybrid_signal lstm_fit_predict format_f df coin_id = Raise e <->
    exists d col latest,
      df = Some d /\ df_empty d = false /\ df_get "close" d = Some col /\
      isna_all (to_numeric col) = false /\
      iloc_last col = Ok latest /\ py_float latest = Raise e.
Proof.
  intros lstm fmt df coin_id e. split.
  - intros H.
    destruct (hybrid_signal_raises_inv _ _ _ _ _ H)
      as (d & col & latest & -> & Hc & Hl & Hf).
    exists d, col, latest. repeat split; try assumption.
    + unfold hybrid_signal in H. destruct (df_empty d); [discriminate|].
      reflexivity.
    + unfold hybrid_signal in H. rewrite Hc in H.
      destruct (df_empty d); [discriminate|]. cbv zeta in H.
      rewrite isna_all_ffill in H.
      destruct (isna_all (to_numeric col)); [discriminate|reflexivity].
  - intros (d & col & latest & -> & He & Hc & Hna & Hl & Hf).
    now apply (hybrid_signal_raises lstm fmt d col latest).
Qed.

(** ** The training set *)

Section TrainingSet.

Lemma firstn_succ_nth {A} (l : list A) n d :
  (n < List.length l)%nat -> firstn (S n) l = firstn n l ++ [nth n l d].
Proof.
  revert n. induction l as [|x l IH]; intros n Hn; [simpl in Hn; lia|].
  destruct n as [|n]; [reflexivity|].
  cbn [firstn nth app]. f_equal.
  apply IH. simpl in Hn. lia.
Qed.

Lemma prepare_window_nth prices lookback i :
  (i < List.length prices - lookback)%nat ->
  nth i (fst (_prepare_sequences prices lookback)) []
  = firstn lookback (skipn i prices).
Proof.
  intros Hi. unfold _prepare_sequences. cbn [fst].
  rewrite (nth_indep _ [] (firstn lookback (skipn 0 prices)))
    by (now rewrite length_map, length_seq).
  rewrite (map_nth (fun j => firstn lookback (skipn j prices))).
  now rewrite seq_nth.
Qed.

Lemma prepare_target_nth prices lookback i :
  (i < List.length prices - lookback)%nat ->
  nth i (snd (_prepare_sequences prices lookback)) NaN
  = nth (i + lookback) prices NaN.
Proof.
  intros Hi. unfold _prepare_sequences. cbn [snd].
  rewrite (nth_indep _ NaN (nth (0 + lookback) prices NaN))
    by (now rewrite length_map, length_seq).
  rewrite (map_nth (fun j => nth (j + lookback) prices NaN)).
  now rewrite seq_nth.
Qed.

Lemma prepare_example_slice prices lookback i :
  (i < List.length prices - lookback)%nat ->
  nth i (fst (_prepare_sequences prices lookback)) []
    ++ [nth i (snd (_prepare_sequences prices lookback)) NaN]
  = firstn (S lookback) (skipn i prices).
Proof.
  intros Hi. rewrite prepare_window_nth, prepare_target_nth by assumption.
  rewrite (firstn_succ_nth (skipn i prices) lookback NaN)
    by (rewrite length_skipn; lia).
  now rewrite nth_skipn.
Qed.

End TrainingSet.



(** X19.  Every training example is a slice of consecutive prices: for
    [lookback >= 1], the [i]-th window followed by the [i]-th target is
    [prices[i : i + lookback + 1]], so the target is the price right
    after its window. *)
Theorem prepare_sequences_examples_are_slices :
  forall (prices : list fl) (lookback i : nat),
    (1 <= lookback)%nat ->
    (i < List.length prices - lookback)%nat ->
    nth i (fst (_prepare_sequences prices lookback)) []
      ++ [nth i (snd (_prepare_sequences prices lookback)) NaN]
    = firstn (S lookback) (skipn i prices).
Proof. intros. now apply prepare_example_slice. Qed.

Lemma prepare_sequences_examples_are_slices_witness :
  (1 <= 3)%nat /\ (2 < List.length rising15 - 3)%nat /\
  nth 2 (fst (_prepare_sequences rising15 3)) []
    ++ [nth 2 (snd (_prepare_sequences rising15 3)) NaN]
  = [Fin 102; Fin 103; Fin 104; Fin 105].
Proof.
  split; [lia|]. split; [vm_compute; lia|].
  rewrite (prepare_sequences_examples_are_slices rising15 3 2).
  - vm_compute. reflexivity.
  - lia.
  - vm_compute. lia.
Defined.

(** X20.  The window fed to the trained model is the last training
    example moved one step on: for [1 <= lookback < len(prices)],
    [prices[-lookback:]] is the last window without its first price,
    followed by the last target.  The last target is the last price. *)
Theorem inference_window_follows_last_example :
  forall (prices : list fl) (lookback : nat),
    (1 <= lookback)%nat ->
    (lookback < List.length prices)%nat ->
    let last_i := (List.length prices - lookback - 1)%nat in
    let window := nth last_i (fst (_prepare_sequences prices lookback)) [] in
    let target := nth last_i (snd (_prepare_sequences prices lookback)) NaN in
    last_window prices lookback = skipn 1 (window ++ [target]) /\
    iloc_last prices = Ok target.
Proof.
  intros prices lookback Hl Hlen last_i window target.
  subst window target. split.
  - rewrite prepare_example_slice by (subst last_i; lia).
    rewrite firstn_all2 by (rewrite length_skipn; subst last_i; lia).
    rewrite skipn_skipn. unfold last_window.
    destruct lookback as [|k]; [lia|]. f_equal. subst last_i. lia.
  - rewrite prepare_target_nth by (subst last_i; lia).
    replace (last_i + lookback)%nat with (List.length prices - 1)%nat
      by (subst last_i; lia).
    destruct (@exists_last _ prices) as (l & x & ->).
    { intros ->. simpl in Hlen. lia. }
    rewrite iloc_last_app, length_app, app_nth2
      by (cbn [List.length]; lia).
    cbn [List.length].
    now replace (List.length l + 1 - 1 - List.length l)%nat with 0%nat by lia.
Qed.

Lemma inference_window_follows_last_example_witness :
  last_window rising15 3 = [Fin 112; Fin 113; Fin 114] /\
  iloc_last rising15 = Ok (Fin 114).
Proof.
  destruct (inference_window_follows_last_example rising15 3
              ltac:(lia) ltac:(vm_compute; lia)) as [H1 H2].
  split.
  - rewrite H1. vm_compute. reflexivity.
  - rewrite H2. vm_compute. reflexivity.
Defined.

(** ** Market insights *)

Section Insights.

Lemma summarize_insights_id (bullets : list string) :
  (1 <= List.length bullets <= 5)%nat -> summarize_insights bullets = bullets.
Proof.
  intros H. unfold summarize_insights.
  destruct bullets as [|b bs]; [simpl in H; lia|].
  apply firstn_all2. lia.
Qed.

Lemma summarize_insights_length (bullets : list string) :
  (1 <= List.length (summarize_insights bullets) <= 5)%nat.
Proof.
  unfold summarize_insights. destruct bullets as [|b bs]; [simpl; lia|].
  rewrite length_firstn. cbn [List.length]. lia.
Qed.

End Insights.

(** X21.  [summarize_insights] always returns between one and five
    lines; it returns a list of one to five lines unchanged, and applying
    it twice is the same as applying it once. *)
Theorem summarize_insights_bounds :
  forall bullets : list string,
    (1 <= List.length (summarize_insights bullets) <= 5)%nat /\
    ((1 <= List.length bullets <= 5)%nat ->
       summarize_insights bullets = bullets) /\
    summarize_insights (summarize_insights bullets)
      = summarize_insights bullets.
Proof.
  intros bullets. split; [apply summarize_insights_length|].
  split; [apply summarize_insights_id|].
  apply summarize_insights_id, summarize_insights_length.
Qed.

(** X22.  Every result of [generate_market_insights] is determined by
    what the tools returned.  The bullets are, in this order: the line
    "Pasar kripto: c." with [c] the answer of the crypto tool (asked for
    "bitcoin" under "mix", for the topic otherwise), present exactly when
    the topic is "crypto" or "mix"; the line "Indeks saham: s." with [s]
    the answer of the stock tool on "^GSPC", present exactly when the
    topic is "stocks" or "mix"; the news line, which reads "stabil" for
    an empty answer of the news tool; the risk line; the advice line.
    All of them are kept: there are three to five, never the default
    lines and never a truncated list.  The items of [raw] are the crypto
    answer and the stock answer under the same conditions, then the
    news. *)
Theorem market_insights_shape :
  forall (_crypto_tool _stock_tool _news_tool : string -> result string)
         (topic : string) (r : Insight.t),
    generate_market_insights _crypto_tool _stock_tool _news_tool topic = Ok r ->
    exists (crypto stock : list string) (news : string),
      (if str_in topic ["crypto"; "mix"]%string
       then exists c,
              _crypto_tool (if String.eqb topic "mix" then "bitcoin"%string
                            else topic) = Ok c /\
              crypto = [c]
       else crypto = []) /\
      (if str_in topic ["stocks"; "mix"]%string
       then exists s, _stock_tool "^GSPC"%string = Ok s /\ stock = [s]
       else stock = []) /\
      _news_tool topic = Ok news /\
      Insight.topic r = topic /\
      Insight.bullets r =
        map (fun c => ("Pasar kripto: " ++ c ++ ".")%string) crypto ++
        map (fun s => ("Indeks saham: " ++ s ++ ".")%string) stock ++
        [("Berita utama: " ++ (if String.eqb news "" then "stabil" else news))%string;
         "Risiko: perhatikan volatilitas harian, gunakan posisi kecil untuk aset berisiko."%string;
         "Saran: catat level support/resistance dan gunakan DCA untuk akumulasi."%string] /\
      Insight.raw r =
        map (fun c => ("crypto"%string, c)) crypto ++
        map (fun s => ("stock"%string, s)) stock ++
        [("news"%string, news)] /\
      (3 <= List.length (Insight.bullets r) <= 5)%nat.
Proof.
  intros ct st nt topic r H. unfold generate_market_insights in H.
  destruct (str_in topic ["crypto"; "mix"]%string);
    [destruct (String.eqb topic "mix");
       cbn [negb] in H;
       (match type of H with
        | context [ct ?a] => destruct (ct a) as [c|] eqn:Hc; [|discriminate]
        end)|];
    cbn [bind app] in H;
    (destruct (str_in topic ["stocks"; "mix"]%string);
       [destruct (st _) as [s|] eqn:Hs; [|discriminate]|]);
    cbn [bind app] in H;
    (destruct (nt topic) as [news|]; [|discriminate]);
    cbn [bind app] in H;
    rewrite summarize_insights_id in H by (cbn [List.length]; lia);
    injection H as <-; cbn [Insight.topic Insight.bullets Insight.raw].
  - exists [c], [s], news.
    repeat split; eauto; cbn [List.length map app]; lia.
  - exists [c], [], news.
    repeat split; eauto; cbn [List.length map app]; lia.
  - exists [c], [s], news.
    repeat split; eauto; cbn [List.length map app]; lia.
  - exists [c], [], news.
    repeat split; eauto; cbn [List.length map app]; lia.
  - exists [], [s], news.
    repeat split; eauto; cbn [List.length map app]; lia.
  - exists [], [], news.
    repeat split; eauto; cbn [List.length map app]; lia.
Qed.

(** Tools that answer with fixed texts, under the topic "mix". *)
Lemma market_insights_shape_witness :
  exists r,
    generate_market_insights (fun s => Ok ("$1"%string))
        (fun s => Ok ("4300"%string)) (fun s => Ok ""%string) "mix" = Ok r /\
    Insight.bullets r =
      ["Pasar kripto: $1."%string;
       "Indeks saham: 4300."%string;
       "Berita utama: stabil"%string;
       "Risiko: perhatikan volatilitas harian, gunakan posisi kecil untuk aset berisiko."%string;
       "Saran: catat level support/resistance dan gunakan DCA untuk akumulasi."%string] /\
    Insight.raw r =
      [("crypto", "$1"); ("stock", "4300"); ("news", "")]%string.
Proof.
  destruct (market_insights_shape (fun s => Ok ("$1"%string))
              (fun s => Ok ("4300"%string)) (fun s => Ok ""%string) "mix"
              _ eq_refl)
    as (crypto & stock & news & Hc & Hs & Hn & _ & Hb & Hr & _).
  cbn in Hc, Hs. destruct Hc as (c & Hc & ->). destruct Hs as (s & Hs & ->).
  injection Hc as <-. injection Hs as <-. injection Hn as <-.
  eexists. split; [reflexivity|]. split; [exact Hb|exact Hr].
Defined.

(** X23.  [generate_market_insights] returns whenever the tools it calls
    return: the news tool on the topic, the crypto tool for the topics
    "crypto" (asked for the topic itself) and "mix" (asked for
    "bitcoin"), the stock tool on "^GSPC" for "stocks" and "mix".  A
    topic outside these three needs the news tool only; and when the news
    tool raises, the call raises. *)
Theorem market_insights_returns :
  forall (_crypto_tool _stock_tool _news_tool : string -> result string)
         (topic : string),
    ((exists news, _news_tool topic = Ok news) ->
     (str_in topic ["crypto"; "mix"]%string = true ->
      exists c,
        _crypto_tool (if String.eqb topic "mix" then "bitcoin"%string
                      else topic) = Ok c) ->
     (str_in topic ["stocks"; "mix"]%string = true ->
      exists s, _stock_tool "^GSPC"%string = Ok s) ->
     exists r,
       generate_market_insights _crypto_tool _stock_tool _news_tool topic
       = Ok r) /\
    (forall e, _news_tool topic = Raise e ->
       exists e',
         generate_market_insights _crypto_tool _stock_tool _news_tool topic
         = Raise e').
Proof.
  intros ct st nt topic. split.
  - intros [news Hn] Hc Hs. unfold generate_market_insights.
    destruct (str_in topic ["crypto"; "mix"]%string).
    + destruct (Hc eq_refl) as [c Hc'].
      destruct (String.eqb topic "mix"); cbn [negb]; rewrite Hc';
        cbn [bind];
        (destruct (str_in topic ["stocks"; "mix"]%string);
           [destruct (Hs eq_refl) as [s ->]|]);
        cbn [bind]; rewrite Hn; cbn [bind]; eauto.
    + cbn [bind].
      destruct (str_in topic ["stocks"; "mix"]%string);
        [destruct (Hs eq_refl) as [s ->]|];
        cbn [bind]; rewrite Hn; cbn [bind]; eauto.
  - intros e Hn. unfold generate_market_insights.
    destruct (str_in topic ["crypto"; "mix"]%string);
      [destruct (ct _) as [c|e1]; [|cbn [bind]; eauto]|];
      cbn [bind];
      (destruct (str_in topic ["stocks"; "mix"]%string);
         [destruct (st _) as [s|e2]; [|cbn [bind]; eauto]|]);
      cbn [bind]; rewrite Hn; cbn [bind]; eauto.
Qed.

(** ** The RSI formula *)

Section RsiFormula.

Lemma nth_error_zip_with f a b i x y :
  nth_error a i = Some x -> nth_error b i = Some y ->
  nth_error (zip_with f a b) i = Some (f x y).
Proof.
  revert a b. induction i as [|i IH]; intros [|x' a] [|y' b]; simpl;
    try discriminate.
  - now intros [= ->] [= ->].
  - apply IH.
Qed.

Lemma rsi_point_formula (g l : Q) :
  0 <= g -> 0 < l ->
  exists q, rsi_point (Fin g) (Fin l) = Fin q /\ q == 100 * g / (g + l).
Proof.
  intros Hg Hl. unfold rsi_point.
  assert (E0 : eqb (Fin l) (Fin 0) = false)
    by (apply Qeq_bool_false; lra).
  rewrite E0. unfold of_Z, inject_Z. cbn [div].
  rewrite (Qeq_bool_false l 0) by lra. cbn [add].
  assert (Hr : 0 <= g / l) by now apply Qdiv_nonneg.
  assert (Hnz : ~ Qred (1 + Qred (g / l)) == 0)
    by (rewrite !Qred_correct; lra).
  rewrite (Qeq_bool_false _ _ Hnz). cbn [sub neg add isnan].
  eexists. split; [reflexivity|].
  rewrite !Qred_correct. field. split; lra.
Qed.

End RsiFormula.

(** X24.  At a position where the average gain [g] is a number at least
    0 and the average loss [l] is a number above 0, the RSI is
    [100 * g / (g + l)]. *)
Theorem rsi_is_gain_share :
  forall (series : list fl) (window i : nat) (g l : Q),
    nth_error
      (rolling_mean window window (clip_lower (Fin 0) (diff series))) i
      = Some (Fin g) ->
    nth_error
      (rolling_mean window window
         (map neg (clip_upper (Fin 0) (diff series)))) i
      = Some (Fin l) ->
    0 <= g -> 0 < l ->
    exists q,
      nth_error (compute_rsi series window) i = Some (Fin q) /\
      q == 100 * g / (g + l).
Proof.
  intros s w i g l Hg Hl Hg0 Hl0.
  destruct (rsi_point_formula g l Hg0 Hl0) as (q & Hq & Heq).
  exists q. split; [|assumption].
  rewrite compute_rsi_pointwise, <- Hq.
  now apply nth_error_zip_with.
Qed.

(** Closes that go 100, 103, 102, 105, 104, ...: up three, down one. *)
Lemma rsi_is_gain_share_witness :
  exists q,
    nth_error
      (compute_rsi
         (map (fun i => of_Z (100 + Z.of_nat i + Z.of_nat (Nat.modulo i 2) * 2))
              (seq 0 15)) 14) 14
      = Some (Fin q) /\
    q == 100 * (3 # 2) / ((3 # 2) + (1 # 2)).
Proof.
  apply (rsi_is_gain_share
           (map (fun i => of_Z (100 + Z.of_nat i + Z.of_nat (Nat.modulo i 2) * 2))
                (seq 0 15)) 14 14 (3 # 2) (1 # 2)).
  - vm_compute. reflexivity.
  - vm_compute. reflexivity.
  - lra.
  - lra.
Defined.
